(** * Tax-authority submission client: retry loop of [tax_integration_app.py]

    A shallow embedding of [TaxAuthorityClient] (constructor and
    [submit_invoice]), of the three primitives it calls ([requests.post],
    [random.uniform] and [time.sleep]) and of the route that calls it.

    The client is modelled twice. The first model follows the runs in which
    nothing is raised but a [RequestException], which the source catches; the
    second, module [Py], adds the exceptions the source does not catch, from
    [requests.post] and from [time.sleep]. Theorem
    [py_agrees_with_first_model] relates them.

    Conventions.
    - Python integers are [Z]; the backoff base, the timeout and the sleep
      durations are exact rationals ([Q]); IEEE rounding of the product
      [backoff_base ** attempt * u] is not modelled.
    - JSON documents and the values stored in the attempt log are Python
      values ([PyValue]); [None] is [PyNone] and [str(e)] is a [PyStr].
    - The outside world is explicit: it answers the n-th [requests.post] and
      the n-th random draw, and it remembers what was sent and slept.
    - [response.json()] raises a subclass of [RequestException]
      ([requests.exceptions.JSONDecodeError], requests 2.27 and later) when a
      non-empty body does not decode.
    - In the first model [random.uniform(a, b)] is [a + (b - a) * random()]
      in exact arithmetic and [time.sleep] accepts every duration; in [Py]
      the value of [random.uniform] is given by the world, and [time.sleep]
      raises on a negative or too long duration. *)

From Stdlib Require Import ZArith QArith Qpower String List Bool Lia Lqa.
From Stdlib Require Import Decimal DecimalString DecimalZ.
Import ListNotations.

Local Open Scope string_scope.
Local Open Scope list_scope.
Local Open Scope Z_scope.

(** ** Python values *)

#[local] Set Warnings "-register-all".

Inductive PyValue : Type :=
| PyNone
| PyBool (b : bool)
| PyInt (z : Z)
| PyFloat (q : Q)
| PyStr (s : string)
| PyList (l : list PyValue)
| PyDict (items : list (string * PyValue)).

(** [range(lo, hi)] *)
Definition range (lo hi : Z) : list Z :=
  map (fun i => lo + Z.of_nat i) (seq 0 (Z.to_nat (hi - lo))).

(** Truth value of a [bytes] object: non-empty. *)
Definition truthy (s : string) : bool :=
  match s with
  | EmptyString => false
  | String _ _ => true
  end.

(** ** Exceptions *)

(** An instance of [requests.exceptions.RequestException] (or of a subclass:
    [ConnectionError], [Timeout], [MissingSchema], [JSONDecodeError], ...),
    carrying what [str(e)] prints. *)
Inductive RequestException : Type :=
| mkRequestException (msg : string).

Definition str (e : RequestException) : string :=
  match e with mkRequestException msg => msg end.

Inductive Exc (A : Type) : Type :=
| Ok (a : A)
| Raise (e : RequestException).
Arguments Ok {A} a.
Arguments Raise {A} e.

(** ** HTTP responses *)

Module Response.
(** What the source reads of a [requests.Response]: [status_code],
    [content] and the result of calling [json()]. *)
Record t : Type := mk {
  status_code : Z;
  content : string;
  json : Exc PyValue
}.
End Response.

(** ** The world *)

Inductive Event : Type :=
| EvPost (url : string) (json : PyValue) (timeout : Q)
| EvSleep (seconds : Q).

Record World : Type := mkWorld {
  (** answer of the n-th call of [requests.post] (counted from 0) *)
  transport : nat -> string -> PyValue -> Q -> Exc Response.t;
  (** value of the n-th call of [random.random] (counted from 0) *)
  random : nat -> Q;
  posts : nat;
  draws : nat;
  (** requests sent and sleeps taken so far, oldest first *)
  events : list Event
}.

(** ** Computations: state passing over the world, with exceptions *)

Definition IO (A : Type) : Type := World -> Exc A * World.

Definition ret {A} (a : A) : IO A := fun w => (Ok a, w).

Definition bind {A B} (m : IO A) (k : A -> IO B) : IO B :=
  fun w =>
    match m w with
    | (Ok a, w') => k a w'
    | (Raise e, w') => (Raise e, w')
    end.

(** [try: body except RequestException as e: handler e] *)
Definition try_except {A} (body : IO A) (handler : RequestException -> IO A) : IO A :=
  fun w =>
    match body w with
    | (Ok a, w') => (Ok a, w')
    | (Raise e, w') => handler e w'
    end.

Definition lift {A} (r : Exc A) : IO A := fun w => (r, w).

Declare Scope io_scope.
Delimit Scope io_scope with io.
Notation "x <- m ;; k" := (bind m (fun x => k))
  (at level 61, m at next level, right associativity) : io_scope.
Notation "m ;; k" := (bind m (fun _ => k))
  (at level 61, right associativity) : io_scope.
Local Open Scope io_scope.

(** ** Primitives *)

(** [requests.post(url, json=json, timeout=timeout)] *)
Definition requests_post (url : string) (json : PyValue) (timeout : Q) : IO Response.t :=
  fun w =>
    (transport w (posts w) url json timeout,
     mkWorld (transport w) (random w) (S (posts w)) (draws w)
             (events w ++ [EvPost url json timeout])).

(** [random.random()] *)
Definition random_random : IO Q :=
  fun w =>
    (Ok (random w (draws w)),
     mkWorld (transport w) (random w) (posts w) (S (draws w)) (events w)).

(** [random.uniform(a, b)]: [a + (b - a) * random()] *)
Definition random_uniform (a b : Q) : IO Q :=
  r <- random_random ;;
  ret (a + (b - a) * r)%Q.

(** [time.sleep(seconds)] *)
Definition time_sleep (seconds : Q) : IO unit :=
  fun w =>
    (Ok tt,
     mkWorld (transport w) (random w) (posts w) (draws w)
             (events w ++ [EvSleep seconds])).

(** ** Attempt records *)

(** One entry of [attempts_log]: the dict with keys ["attempt"],
    ["status_code"] and ["response"]. *)
Record AttemptRecord : Type := mkAttempt {
  attempt : Z;
  status_code : option Z;
  response : PyValue
}.

(** What one pass through the loop body does to the control flow. *)
Inductive Flow : Type :=
| Return (result : string * list AttemptRecord)
| Next (attempts_log : list AttemptRecord).

(** ** The client *)

Module TaxAuthorityClient.

Record t : Type := mk {
  base_url : string;
  max_retries : Z;
  backoff_base : Q;
  timeout : Q
}.

Definition default_max_retries : Z := 3.
Definition default_backoff_base : Q := 2.
Definition default_timeout : Q := 5.

Definition __init__ (base_url : string) (max_retries : Z)
    (backoff_base timeout : Q) : t :=
  mk base_url max_retries backoff_base timeout.

(** [f"{self.base_url}/tax/submit?mode={mode}"] *)
Definition submit_url (self : t) (mode : string) : string :=
  (base_url self ++ "/tax/submit?mode=" ++ mode)%string.

(** Lines 97-107: the [try] block of one attempt. *)
Definition try_block (self : t) (url : string) (invoice : PyValue)
    (attempt : Z) (attempts_log : list AttemptRecord) : IO Flow :=
  response <- requests_post url invoice (timeout self) ;;
  body <- (if truthy (Response.content response)
           then lift (Response.json response)
           else ret PyNone) ;;
  let attempts_log :=
    attempts_log ++ [mkAttempt attempt (Some (Response.status_code response)) body] in
  if Response.status_code response =? 200 then
    ret (Return ("SUBMITTED", attempts_log))
  else if (400 <=? Response.status_code response)
          && (Response.status_code response <? 500) then
    ret (Return ("FAILED", attempts_log))
  else
    ret (Next attempts_log).

(** Lines 109-114: the [except] clause. *)
Definition except_block (attempt : Z) (attempts_log : list AttemptRecord)
    (e : RequestException) : IO Flow :=
  ret (Next (attempts_log ++ [mkAttempt attempt None (PyStr (str e))])).

(** Lines 116-118: the backoff. *)
Definition backoff (self : t) (attempt : Z) : IO unit :=
  if attempt <? max_retries self then
    u <- random_uniform (1 # 2) (3 # 2) ;;
    let sleep_time := (backoff_base self ^ attempt * u)%Q in
    time_sleep sleep_time
  else
    ret tt.

(** Lines 96-118: the body of the [for] loop. *)
Definition loop_body (self : t) (url : string) (invoice : PyValue)
    (attempt : Z) (attempts_log : list AttemptRecord) : IO Flow :=
  flow <- try_except (try_block self url invoice attempt attempts_log)
                     (except_block attempt attempts_log) ;;
  match flow with
  | Return result => ret (Return result)
  | Next attempts_log => backoff self attempt ;; ret (Next attempts_log)
  end.

(** Lines 95-120: the [for] loop over the remaining attempt numbers, and
    the [return] that follows it. *)
Fixpoint for_attempts (self : t) (url : string) (invoice : PyValue)
    (attempts : list Z) (attempts_log : list AttemptRecord)
    : IO (string * list AttemptRecord) :=
  match attempts with
  | [] => ret ("FAILED", attempts_log)
  | attempt :: rest =>
      flow <- loop_body self url invoice attempt attempts_log ;;
      match flow with
      | Return result => ret result
      | Next attempts_log => for_attempts self url invoice rest attempts_log
      end
  end.

Definition submit_invoice (self : t) (invoice : PyValue) (mode : string)
    : IO (string * list AttemptRecord) :=
  let url := submit_url self mode in
  for_attempts self url invoice (range 1 (max_retries self + 1)) [].

End TaxAuthorityClient.

Import TaxAuthorityClient.

(** * Reading a run

    The definitions below are used to state and prove properties of the
    code above: how one reply of the transport is recorded and classified,
    and which events a call adds to the world. *)

(** The world after [requests.post] was called once. *)
Definition posted (url : string) (invoice : PyValue) (tmo : Q) (w : World) : World :=
  mkWorld (transport w) (random w) (S (posts w)) (draws w)
          (events w ++ [EvPost url invoice tmo]).

(** The body the source stores for a response: [response.json()] when
    [response.content] is non-empty, [None] otherwise. *)
Definition body_of (r : Response.t) : Exc PyValue :=
  if truthy (Response.content r) then Response.json r else Ok PyNone.

(** The record appended for an attempt, given what [requests.post] did. *)
Definition record_of (attempt : Z) (reply : Exc Response.t) : AttemptRecord :=
  match reply with
  | Ok r =>
      match body_of r with
      | Ok body => mkAttempt attempt (Some (Response.status_code r)) body
      | Raise e => mkAttempt attempt None (PyStr (str e))
      end
  | Raise e => mkAttempt attempt None (PyStr (str e))
  end.

(** The status an attempt returns with, if it ends the loop. *)
Definition verdict (reply : Exc Response.t) : option string :=
  match reply with
  | Ok r =>
      match body_of r with
      | Ok _ =>
          if Response.status_code r =? 200 then Some "SUBMITTED"
          else if (400 <=? Response.status_code r) && (Response.status_code r <? 500)
               then Some "FAILED"
               else None
      | Raise _ => None
      end
  | Raise _ => None
  end.

(** The jittered delay slept after attempt number [attempt], using the
    [d]-th draw of [random.random]. *)
Definition delay (self : t) (w : World) (attempt : Z) (d : nat) : Q :=
  (backoff_base self ^ attempt * ((1 # 2) + ((3 # 2) - (1 # 2)) * random w d))%Q.

(** The world after the backoff step of attempt number [attempt]. *)
Definition backed_off (self : t) (attempt : Z) (w : World) : World :=
  if attempt <? max_retries self then
    mkWorld (transport w) (random w) (posts w) (S (draws w))
            (events w ++ [EvSleep (delay self w attempt (draws w))])
  else w.

(** Events of [k] consecutive attempts, the first being attempt number
    [1 + j] and the first sleep using draw [d]: a post, then a sleep and a
    post for every further attempt. *)
Fixpoint schedule (self : t) (url : string) (invoice : PyValue) (w : World)
    (j d k : nat) : list Event :=
  match k with
  | O => []
  | S k' =>
      EvPost url invoice (timeout self) ::
      match k' with
      | O => []
      | S _ => EvSleep (delay self w (1 + Z.of_nat j) d) ::
               schedule self url invoice w (S j) (S d) k'
      end
  end.

Section RunDefinitions.

Variables (self : t) (url : string) (invoice : PyValue).

(** The reply to the [i]-th request (counted from 0) sent from world [w]
    on. *)
Definition reply (w : World) (i : nat) : Exc Response.t :=
  transport w (posts w + i) url invoice (timeout self).

(** What a run of [n] remaining attempts, the first being attempt number
    [1 + j], leaves behind: status [st], new records [recs], world [w']. *)
Record run_inv (j n : nat) (w : World) (st : string)
    (recs : list AttemptRecord) (w' : World) : Prop := {
  run_len : (length recs <= n)%nat;
  run_nonempty : (0 < n)%nat -> (0 < length recs)%nat;
  run_records : forall i, (i < length recs)%nat ->
    nth_error recs i = Some (record_of (1 + Z.of_nat (j + i)) (reply w i));
  run_posts : posts w' = (posts w + length recs)%nat;
  run_transport : transport w' = transport w;
  run_random : random w' = random w;
  run_before : forall i, (S i < length recs)%nat -> verdict (reply w i) = None;
  run_end :
    (exists i, length recs = S i /\ verdict (reply w i) = Some st) \/
    (length recs = n /\ st = "FAILED" /\
     forall i, (i < length recs)%nat -> verdict (reply w i) = None);
  run_draws : draws w' = (draws w + Nat.pred (length recs))%nat;
  run_events :
    events w' = events w ++ schedule self url invoice w j (draws w) (length recs)
}.

End RunDefinitions.

(** What [requests.post] did at attempt number [k] (1-based) of the call
    of [submit_invoice] started in world [w]. *)
Definition attempt_reply (self : t) (invoice : PyValue) (mode : string)
    (w : World) (k : nat) : Exc Response.t :=
  reply self (submit_url self mode) invoice w (Nat.pred k).

(** The body of the response is empty or decodes as JSON. *)
Definition readable (r : Response.t) : Prop :=
  exists body, body_of r = Ok body.


(** ** Fixtures: concrete clients, invoices and worlds *)

Definition sample_invoice : PyValue :=
  PyDict [("invoiceId", PyInt 7); ("paid", PyStr "yes")].

(** A world in which nothing has happened yet; the n-th request is answered
    by [answers n] and every draw of [random.random] gives [r]. *)
Definition fresh_world (answers : nat -> Exc Response.t) (r : Q) : World :=
  mkWorld (fun n _ _ _ => answers n) (fun _ => r) 0 0 [].

Definition json_response (code : Z) : Response.t :=
  Response.mk code "{}" (Ok (PyDict [])).

Definition html_response (code : Z) : Response.t :=
  Response.mk code "<html>"
    (Raise (mkRequestException "Expecting value: line 1 column 1 (char 0)")).

Definition connection_refused : RequestException :=
  mkRequestException "Connection refused".

(** A client built like the module-level [client]: every keyword argument
    at its default (3 attempts, backoff base 2, timeout 5). *)
Definition client3 : t :=
  __init__ "https://tax.example" default_max_retries default_backoff_base default_timeout.

Definition always (r : Exc Response.t) : nat -> Exc Response.t := fun _ => r.

Definition error_page_then_ok : nat -> Exc Response.t :=
  fun n => match n with
           | O => Ok (html_response 404)
           | _ => Ok (json_response 200)
           end.

Definition no_scheme : RequestException :=
  mkRequestException
    "Invalid URL 'not a url/tax/submit?mode=success': No scheme supplied.".

(** * The application around the client

    The request models of the ["/api/v1/invoices/submit"] route, the rows it
    writes and the route itself. The database session is modelled by the
    calls the route makes on it, in order; a session call that raises ends
    the route, and that path is not modelled. *)

(** [str(n)] for a Python integer. *)
Definition str_int (n : Z) : string :=
  NilZero.string_of_int (Z.to_int n).

Module Seller.
Record t : Type := mk { tin : string; name : string }.
Definition dict (x : t) : PyValue :=
  PyDict [("tin", PyStr (tin x)); ("name", PyStr (name x))].
End Seller.

Module Buyer.
Record t : Type := mk { tin : string; name : string }.
Definition dict (x : t) : PyValue :=
  PyDict [("tin", PyStr (tin x)); ("name", PyStr (name x))].
End Buyer.

Module Total.
Record t : Type := mk {
  subtotal : Q;
  tax_total : Q;
  discount_total : Q;
  total : Q;
  vat : Q;
  payment_method : string
}.
Definition dict (x : t) : PyValue :=
  PyDict [("subtotal", PyFloat (subtotal x));
          ("tax_total", PyFloat (tax_total x));
          ("discount_total", PyFloat (discount_total x));
          ("total", PyFloat (total x));
          ("vat", PyFloat (vat x));
          ("payment_method", PyStr (payment_method x))].
End Total.

Module Item.
Record t : Type := mk {
  invoiceItemId : string;
  itemId : string;
  taxable : string;
  rate : Z;
  itemName : string;
  qty : Z;
  tags : string
}.
Definition dict (x : t) : PyValue :=
  PyDict [("invoiceItemId", PyStr (invoiceItemId x));
          ("itemId", PyStr (itemId x));
          ("taxable", PyStr (taxable x));
          ("rate", PyInt (rate x));
          ("itemName", PyStr (itemName x));
          ("qty", PyInt (qty x));
          ("tags", PyStr (tags x))].
End Item.

Module Invoice.
Record t : Type := mk {
  seller : Seller.t;
  buyer : Buyer.t;
  invoiceDate : string;
  invoiceId : Z;
  paid : string;
  isPaid : string;
  comment : string;
  cardAcceptable : string;
  total : list Total.t;
  items : list Item.t
}.
(** [invoice.dict()] *)
Definition dict (x : t) : PyValue :=
  PyDict [("seller", Seller.dict (seller x));
          ("buyer", Buyer.dict (buyer x));
          ("invoiceDate", PyStr (invoiceDate x));
          ("invoiceId", PyInt (invoiceId x));
          ("paid", PyStr (paid x));
          ("isPaid", PyStr (isPaid x));
          ("comment", PyStr (comment x));
          ("cardAcceptable", PyStr (cardAcceptable x));
          ("total", PyList (map Total.dict (total x)));
          ("items", PyList (map Item.dict (items x)))].
End Invoice.

(** A row of table ["invoices"], as the route builds it:
    [InvoiceDB(invoice_id=..., status=...)]. *)
Module InvoiceDB.
Record t : Type := mk { invoice_id : string; status : string }.
End InvoiceDB.

(** A row of table ["invoice_responses"], as the route builds it. *)
Module InvoiceResponseDB.
Record t : Type := mk {
  invoice_id : string;
  attempt : Z;
  status_code : option Z;
  response : PyValue
}.
End InvoiceResponseDB.

(** The calls a route makes on its database session. *)
Inductive SessionCall : Type :=
| Merge (inv : InvoiceDB.t)
| Add (resp : InvoiceResponseDB.t)
| Commit.

(** A session: the calls it has received, oldest first. *)
Definition Session : Type := list SessionCall.

Module App.

(** [client = TaxAuthorityClient(TAX_API_URL)] *)
Definition client (TAX_API_URL : string) : TaxAuthorityClient.t :=
  __init__ TAX_API_URL default_max_retries default_backoff_base default_timeout.

(** [GET /ping] *)
Definition ping : PyValue := PyDict [("status", PyStr "ok")].

(** The dict the submit route returns. *)
Record SubmitResult : Type := mkResult {
  invoice_id : Z;
  status : string;
  attempts : list AttemptRecord
}.

(** Lines 138-145: one [InvoiceResponseDB] row added per attempt. *)
Definition add_responses (invoiceId : Z) (attempts : list AttemptRecord)
    (db : Session) : Session :=
  fold_left
    (fun db att =>
       let resp := InvoiceResponseDB.mk (str_int invoiceId) (attempt att)
                     (status_code att) (response att) in
       db ++ [Add resp])
    attempts db.

(** [POST /api/v1/invoices/submit] *)
Definition submit_invoice (TAX_API_URL : string) (invoice : Invoice.t)
    (mode : string) (db : Session) : IO (SubmitResult * Session) :=
  result <- TaxAuthorityClient.submit_invoice (client TAX_API_URL)
              (Invoice.dict invoice) mode ;;
  let '(status, attempts) := result in
  let inv := InvoiceDB.mk (str_int (Invoice.invoiceId invoice)) status in
  let db := db ++ [Merge inv] in
  let db := db ++ [Commit] in
  let db := add_responses (Invoice.invoiceId invoice) attempts db in
  let db := db ++ [Commit] in
  ret (mkResult (Invoice.invoiceId invoice) status attempts, db).

End App.

Definition sample_order : Invoice.t :=
  Invoice.mk (Seller.mk "S-1" "Seller Ltd") (Buyer.mk "B-1" "Buyer Ltd")
    "2025-01-31" 1001 "yes" "true" "" "no"
    [Total.mk 100 16 0 116 16 "card"]
    [Item.mk "1" "A" "yes" 16 "Widget" 2 ""].

(** * The client with every exception

    The model above follows the runs in which nothing is raised but a
    [RequestException]. Module [Py] is the same code with the exceptions the
    source does not handle: [requests.post] may raise an exception of any
    class (a [ValueError] for a timeout that is not positive, urllib3's
    [LocationParseError] for a host it cannot parse, ...), and the backoff may
    raise from [time.sleep]. [random.uniform] is a primitive of the world: its
    n-th call returns a float, taken as the rational it is. *)

(** A raised exception: an instance of [RequestException] (the class the
    source catches), or of any other class, named. *)
Inductive PyException : Type :=
| RequestError (e : RequestException)
| OtherError (class : string).

Inductive Outcome (A : Type) : Type :=
| Returned (a : A)
| Raised (e : PyException).
Arguments Returned {A} a.
Arguments Raised {A} e.

Module Py.

Record World : Type := mkWorld {
  (** what the n-th call of [requests.post] does (counted from 0) *)
  transport : nat -> string -> PyValue -> Q -> Outcome Response.t;
  (** what the n-th call of [random.uniform], with its two arguments,
      returns (counted from 0) *)
  uniform : nat -> Q -> Q -> Q;
  (** the longest duration [time.sleep] accepts; beyond it the backoff
      raises [OverflowError], in [time.sleep] or already in the arithmetic *)
  sleep_max : Q;
  posts : nat;
  draws : nat;
  (** requests sent and sleeps taken so far, oldest first *)
  events : list Event
}.

Definition IO (A : Type) : Type := World -> Outcome A * World.

Definition ret {A} (a : A) : IO A := fun w => (Returned a, w).

Definition bind {A B} (m : IO A) (k : A -> IO B) : IO B :=
  fun w =>
    match m w with
    | (Returned a, w') => k a w'
    | (Raised e, w') => (Raised e, w')
    end.

(** [try: body except RequestException as e: handler e]: an exception of
    another class goes through. *)
Definition try_except {A} (body : IO A) (handler : RequestException -> IO A) : IO A :=
  fun w =>
    match body w with
    | (Returned a, w') => (Returned a, w')
    | (Raised (RequestError e), w') => handler e w'
    | (Raised (OtherError class), w') => (Raised (OtherError class), w')
    end.

(** The result of [response.json()], which raises [RequestException]s
    only. *)
Definition lift_json (r : Exc PyValue) : IO PyValue :=
  fun w =>
    match r with
    | Ok v => (Returned v, w)
    | Raise e => (Raised (RequestError e), w)
    end.

(** [requests.post(url, json=json, timeout=timeout)] *)
Definition requests_post (url : string) (json : PyValue) (timeout : Q) : IO Response.t :=
  fun w =>
    (transport w (posts w) url json timeout,
     mkWorld (transport w) (uniform w) (sleep_max w) (S (posts w)) (draws w)
             (events w ++ [EvPost url json timeout])).

(** [random.uniform(a, b)] *)
Definition random_uniform (a b : Q) : IO Q :=
  fun w =>
    (Returned (uniform w (draws w) a b),
     mkWorld (transport w) (uniform w) (sleep_max w) (posts w) (S (draws w))
             (events w)).

(** [time.sleep(seconds)]: [OverflowError] for a duration too large to be
    converted, whatever its sign, [ValueError] for a negative one. *)
Definition time_sleep (seconds : Q) : IO unit :=
  fun w =>
    if Qle_bool 0 seconds then
      if Qle_bool seconds (sleep_max w) then
        (Returned tt,
         mkWorld (transport w) (uniform w) (sleep_max w) (posts w) (draws w)
                 (events w ++ [EvSleep seconds]))
      else (Raised (OtherError "OverflowError"), w)
    else
      if Qle_bool (- seconds) (sleep_max w) then
        (Raised (OtherError "ValueError"), w)
      else (Raised (OtherError "OverflowError"), w).

Declare Scope py_scope.
Delimit Scope py_scope with py.
Notation "x <- m ;; k" := (bind m (fun x => k))
  (at level 61, m at next level, right associativity) : py_scope.
Notation "m ;; k" := (bind m (fun _ => k))
  (at level 61, right associativity) : py_scope.

(** Lines 97-107: the [try] block of one attempt. *)
Definition try_block (self : TaxAuthorityClient.t) (url : string) (invoice : PyValue)
    (attempt : Z) (attempts_log : list AttemptRecord) : IO Flow :=
  (response <- requests_post url invoice (timeout self) ;;
   body <- (if truthy (Response.content response)
            then lift_json (Response.json response)
            else ret PyNone) ;;
   let attempts_log :=
     attempts_log ++ [mkAttempt attempt (Some (Response.status_code response)) body] in
   if Response.status_code response =? 200 then
     ret (Return ("SUBMITTED", attempts_log))
   else if (400 <=? Response.status_code response)
           && (Response.status_code response <? 500) then
     ret (Return ("FAILED", attempts_log))
   else
     ret (Next attempts_log))%py.

(** Lines 109-114: the [except] clause. *)
Definition except_block (attempt : Z) (attempts_log : list AttemptRecord)
    (e : RequestException) : IO Flow :=
  ret (Next (attempts_log ++ [mkAttempt attempt None (PyStr (str e))])).

(** Lines 116-118: the backoff. *)
Definition backoff (self : TaxAuthorityClient.t) (attempt : Z) : IO unit :=
  (if attempt <? max_retries self then
     u <- random_uniform (1 # 2) (3 # 2) ;;
     let sleep_time := (backoff_base self ^ attempt * u)%Q in
     time_sleep sleep_time
   else
     ret tt)%py.

(** Lines 96-118: the body of the [for] loop. *)
Definition loop_body (self : TaxAuthorityClient.t) (url : string) (invoice : PyValue)
    (attempt : Z) (attempts_log : list AttemptRecord) : IO Flow :=
  (flow <- try_except (try_block self url invoice attempt attempts_log)
                      (except_block attempt attempts_log) ;;
   match flow with
   | Return result => ret (Return result)
   | Next attempts_log => backoff self attempt ;; ret (Next attempts_log)
   end)%py.

(** Lines 95-120: the [for] loop and the [return] that follows it. *)
Fixpoint for_attempts (self : TaxAuthorityClient.t) (url : string) (invoice : PyValue)
    (attempts : list Z) (attempts_log : list AttemptRecord)
    : IO (string * list AttemptRecord) :=
  match attempts with
  | [] => ret ("FAILED", attempts_log)
  | attempt :: rest =>
      (flow <- loop_body self url invoice attempt attempts_log ;;
       match flow with
       | Return result => ret result
       | Next attempts_log => for_attempts self url invoice rest attempts_log
       end)%py
  end.

Definition submit_invoice (self : TaxAuthorityClient.t) (invoice : PyValue)
    (mode : string) : IO (string * list AttemptRecord) :=
  let url := submit_url self mode in
  for_attempts self url invoice (range 1 (max_retries self + 1)) [].

End Py.

(** ** Reading a run of [Py.submit_invoice] *)

(** What the [try] and [except] of the source see of a reply: the response,
    or the [RequestException] caught; nothing for an exception of another
    class, which escapes. *)
Definition caught (reply : Outcome Response.t) : option (Exc Response.t) :=
  match reply with
  | Returned r => Some (Ok r)
  | Raised (RequestError e) => Some (Raise e)
  | Raised (OtherError _) => None
  end.

(** The reply to attempt number [k] (1-based) of the call started in [w]. *)
Definition py_reply (self : t) (invoice : PyValue) (mode : string)
    (w : Py.World) (k : nat) : Outcome Response.t :=
  Py.transport w (Py.posts w + Nat.pred k) (submit_url self mode) invoice (timeout self).

(** The number of requests sent between two worlds. *)
Definition requests_sent (w w' : Py.World) : nat := Py.posts w' - Py.posts w.

(** The delay computed after attempt number [k] (1-based) of the call
    started in [w]: the k-th backoff uses the k-th draw. *)
Definition py_delay (self : t) (w : Py.World) (k : nat) : Q :=
  (backoff_base self ^ Z.of_nat k
   * Py.uniform w (Py.draws w + Nat.pred k) (1 # 2) (3 # 2))%Q.

(** [time.sleep] accepts the duration. *)
Definition sleepable (w : Py.World) (seconds : Q) : Prop :=
  (0 <= seconds)%Q /\ (seconds <= Py.sleep_max w)%Q.

(** What the backoff raises on a duration, if anything. *)
Definition sleep_error (w : Py.World) (seconds : Q) : option PyException :=
  if Qle_bool 0 seconds then
    if Qle_bool seconds (Py.sleep_max w) then None
    else Some (OtherError "OverflowError")
  else
    if Qle_bool (- seconds) (Py.sleep_max w) then Some (OtherError "ValueError")
    else Some (OtherError "OverflowError").

(** Every attempt the configuration allows is answered by a response or by
    a [RequestException]. *)
Definition transport_answers (self : t) (invoice : PyValue) (mode : string)
    (w : Py.World) : Prop :=
  forall k, (1 <= k)%nat -> Z.of_nat k <= max_retries self ->
            caught (py_reply self invoice mode w k) <> None.

(** Every delay the configuration can ask for is one [time.sleep] accepts. *)
Definition backoff_accepted (self : t) (w : Py.World) : Prop :=
  forall k, (1 <= k)%nat -> Z.of_nat k < max_retries self ->
            sleepable w (py_delay self w k).


(** Events of [k] consecutive attempts, the first being attempt number
    [1 + j] and the first sleep using draw [d]: a post, then a sleep and a
    post for every further attempt. *)
Fixpoint py_schedule (post : Event) (delay : nat -> nat -> Q) (j d k : nat)
    : list Event :=
  match k with
  | O => []
  | S k' =>
      post ::
      match k' with
      | O => []
      | S _ => EvSleep (delay (S j) d) :: py_schedule post delay (S j) (S d) k'
      end
  end.

(** The delay after attempt number [a] when it uses draw number [d]. *)
Definition py_delay_at (self : t) (w : Py.World) (a d : nat) : Q :=
  (backoff_base self ^ Z.of_nat a * Py.uniform w d (1 # 2) (3 # 2))%Q.

(** The world after [requests.post] was called once. *)
Definition py_posted (url : string) (invoice : PyValue) (tmo : Q) (w : Py.World)
    : Py.World :=
  Py.mkWorld (Py.transport w) (Py.uniform w) (Py.sleep_max w) (S (Py.posts w))
             (Py.draws w) (Py.events w ++ [EvPost url invoice tmo]).

(** The world after one draw of [random.uniform]. *)
Definition py_drawn (w : Py.World) : Py.World :=
  Py.mkWorld (Py.transport w) (Py.uniform w) (Py.sleep_max w) (Py.posts w)
             (S (Py.draws w)) (Py.events w).

(** The world after one draw and the sleep of [seconds]. *)
Definition py_slept (seconds : Q) (w : Py.World) : Py.World :=
  Py.mkWorld (Py.transport w) (Py.uniform w) (Py.sleep_max w) (Py.posts w)
             (S (Py.draws w)) (Py.events w ++ [EvSleep seconds]).

(** What the loop body does once the reply of [requests.post] is seen, in
    the world [w1] that the request left. *)
Definition py_step (self : t) (a : Z) (log : list AttemptRecord) (w1 : Py.World)
    (seen : Exc Response.t) : Outcome Flow * Py.World :=
  match verdict seen with
  | Some st => (Returned (Return (st, log ++ [record_of a seen])), w1)
  | None =>
      if a <? max_retries self then
        let seconds :=
          (backoff_base self ^ a * Py.uniform w1 (Py.draws w1) (1 # 2) (3 # 2))%Q in
        match sleep_error w1 seconds with
        | None => (Returned (Next (log ++ [record_of a seen])), py_slept seconds w1)
        | Some e => (Raised e, py_drawn w1)
        end
      else (Returned (Next (log ++ [record_of a seen])), w1)
  end.

Section PyRunDefinitions.

Variables (self : t) (url : string) (invoice : PyValue).

(** The reply to the [i]-th request (counted from 0) sent from world [w]
    on. *)
Definition py_reply_from (w : Py.World) (i : nat) : Outcome Response.t :=
  Py.transport w (Py.posts w + i) url invoice (timeout self).

(** The reply lets the loop go on (it is caught, and is no readable 200 or
    4xx). *)
Definition py_carries_on (reply : Outcome Response.t) : Prop :=
  exists seen, caught reply = Some seen /\ verdict seen = None.

(** What a run of [n] remaining attempts, the first being attempt number
    [1 + j], started in [w] with log [log0], leaves behind after sending [p]
    requests: result [res] and world [w']. *)
Record py_inv (j n : nat) (w : Py.World) (log0 : list AttemptRecord)
    (res : Outcome (string * list AttemptRecord)) (w' : Py.World) (p : nat)
    : Prop := {
  pi_le : (p <= n)%nat;
  pi_pos : (0 < n)%nat -> (0 < p)%nat;
  pi_posts : Py.posts w' = (Py.posts w + p)%nat;
  pi_transport : Py.transport w' = Py.transport w;
  pi_uniform : Py.uniform w' = Py.uniform w;
  pi_sleep_max : Py.sleep_max w' = Py.sleep_max w;
  pi_before : forall i, (S i < p)%nat -> py_carries_on (py_reply_from w i);
  pi_slept : forall i, (S i < p)%nat ->
    sleep_error w (py_delay_at self w (S (j + i)) (Py.draws w + i)) = None;
  pi_events :
    Py.events w' =
    Py.events w ++ py_schedule (EvPost url invoice (timeout self))
                     (py_delay_at self w) j (Py.draws w) p;
  pi_result :
    match res with
    | Returned (st, log) =>
        exists recs,
          log = log0 ++ recs
          /\ length recs = p
          /\ (forall i, (i < p)%nat ->
                exists seen, caught (py_reply_from w i) = Some seen
                  /\ nth_error recs i = Some (record_of (1 + Z.of_nat (j + i)) seen))
          /\ ((exists i seen, p = S i /\ caught (py_reply_from w i) = Some seen
                               /\ verdict seen = Some st)
              \/ (p = n /\ st = "FAILED"
                  /\ forall i, (i < p)%nat -> py_carries_on (py_reply_from w i)))
          /\ Py.draws w' = (Py.draws w + Nat.pred p)%nat
    | Raised e =>
        exists i, p = S i
          /\ ((py_reply_from w i = Raised e /\ caught (py_reply_from w i) = None)
              \/ (py_carries_on (py_reply_from w i) /\ (S i < n)%nat
                  /\ sleep_error w (py_delay_at self w (S (j + i)) (Py.draws w + i))
                     = Some e))
    end
}.

End PyRunDefinitions.

(** A world in which nothing has happened yet: the n-th request is answered
    by [answers n], every draw of [random.uniform] gives [u], and
    [time.sleep] accepts up to [limit] seconds. *)
Definition py_world (answers : nat -> Outcome Response.t) (u limit : Q) : Py.World :=
  Py.mkWorld (fun n _ _ _ => answers n) (fun _ _ _ => u) limit 0 0 [].

(** The world of the first model, seen as a world of [Py]: the same replies,
    [random.uniform(a, b)] computed as [a + (b - a) * random()], and
    [time.sleep] accepting up to [limit] seconds. *)
Definition py_of_world (w : World) (limit : Q) : Py.World :=
  Py.mkWorld
    (fun n url json tmo =>
       match transport w n url json tmo with
       | Ok r => Returned r
       | Raise e => Raised (RequestError e)
       end)
    (fun n a b => (a + (b - a) * random w n)%Q)
    limit (posts w) (draws w) (events w).

(** Two worlds, one of each model, that are in the same state. *)
Definition same_state (w : World) (wp : Py.World) : Prop :=
  (forall n url json tmo,
     Py.transport wp n url json tmo
     = match transport w n url json tmo with
       | Ok r => Returned r
       | Raise e => Raised (RequestError e)
       end)
  /\ (forall n a b, Py.uniform wp n a b = (a + (b - a) * random w n)%Q)
  /\ Py.posts wp = posts w
  /\ Py.draws wp = draws w
  /\ Py.events wp = events w.

Definition empty_response (code : Z) : Response.t :=
  Response.mk code "" (Raise (mkRequestException "Expecting value: line 1 column 1 (char 0)")).

Definition py_always (r : Outcome Response.t) : nat -> Outcome Response.t :=
  fun _ => r.

(** ** Further notions used to state properties *)

(** The reply lets the loop go on: [requests.post] raised, or the body of
    the response does not decode, or the status code is neither 200 nor in
    [400, 500). *)
Definition carries_on (reply : Exc Response.t) : Prop :=
  match reply with
  | Ok r => ~ readable r
            \/ (Response.status_code r <> 200
                /\ ~ (400 <= Response.status_code r < 500))
  | Raise _ => True
  end.


(** The time slept in a list of events. *)
Fixpoint total_sleep (evs : list Event) : Q :=
  match evs with
  | [] => 0
  | EvPost _ _ _ :: rest => total_sleep rest
  | EvSleep seconds :: rest => seconds + total_sleep rest
  end%Q.

(** [b^from + b^(from+1) + ... ] over [n] consecutive exponents. *)
Fixpoint power_sum (b : Q) (from n : nat) : Q :=
  match n with
  | O => 0
  | S n' => b ^ Z.of_nat from + power_sum b (S from) n'
  end%Q.

(** * The loop body in closed form *)

Lemma loop_body_eq (self : t) (url : string) (invoice : PyValue)
    (a : Z) (log : list AttemptRecord) (w : World) :
  loop_body self url invoice a log w =
  let reply := transport w (posts w) url invoice (timeout self) in
  let w1 := posted url invoice (timeout self) w in
  match verdict reply with
  | Some st => (Ok (Return (st, log ++ [record_of a reply])), w1)
  | None => (Ok (Next (log ++ [record_of a reply])), backed_off self a w1)
  end.
Proof.
  unfold loop_body, try_except, try_block, except_block, bind, requests_post,
    verdict, record_of, body_of, backed_off, backoff, posted; cbn.
  destruct (transport w (posts w) url invoice (timeout self)) as [r | e]; cbn.
  - destruct (truthy (Response.content r)); cbn.
    + destruct (Response.json r) as [body | e]; cbn.
      * destruct (Response.status_code r =? 200); cbn; [reflexivity |].
        destruct ((400 <=? Response.status_code r) && (Response.status_code r <? 500));
          cbn; [reflexivity |].
        destruct (a <? max_retries self); reflexivity.
      * destruct (a <? max_retries self); reflexivity.
    + destruct (Response.status_code r =? 200); cbn; [reflexivity |].
      destruct ((400 <=? Response.status_code r) && (Response.status_code r <? 500));
        cbn; [reflexivity |].
      destruct (a <? max_retries self); reflexivity.
  - destruct (a <? max_retries self); reflexivity.
Qed.


Lemma range_from_one (m : Z) :
  range 1 (m + 1) = map (fun i => 1 + Z.of_nat i) (seq 0 (Z.to_nat m)).
Proof. unfold range. now replace (m + 1 - 1) with m by lia. Qed.

(** * The loop as a whole *)

Section Runs.

Variables (self : t) (url : string) (invoice : PyValue).

Lemma schedule_step (w : World) (j d k : nat) :
  schedule self url invoice w j d (S (S k)) =
  EvPost url invoice (timeout self) ::
  EvSleep (delay self w (1 + Z.of_nat j) d) ::
  schedule self url invoice w (S j) (S d) (S k).
Proof. reflexivity. Qed.

Lemma schedule_ext (w1 w2 : World) (j d k : nat) :
  random w1 = random w2 ->
  schedule self url invoice w1 j d k = schedule self url invoice w2 j d k.
Proof.
  intros H. revert j d. induction k as [| k IH]; intros j d; [reflexivity |].
  destruct k as [| k]; [reflexivity |].
  rewrite !schedule_step, (IH (S j) (S d)). unfold delay. now rewrite H.
Qed.

Lemma for_attempts_run (n : nat) : forall (j : nat) (log : list AttemptRecord) (w : World),
  n = O \/ Z.of_nat (j + n) = max_retries self ->
  exists st recs w',
    for_attempts self url invoice (map (fun i => 1 + Z.of_nat i) (seq j n)) log w
      = (Ok (st, log ++ recs), w')
    /\ run_inv self url invoice j n w st recs w'.
Proof.
  induction n as [| n IH]; intros j log w Hm.
  - exists "FAILED", [], w. cbn [seq map for_attempts]. rewrite app_nil_r.
    split; [reflexivity |].
    constructor; cbn [length].
    + lia.
    + lia.
    + intros i Hi; lia.
    + lia.
    + reflexivity.
    + reflexivity.
    + intros i Hi; lia.
    + right. repeat split. intros i Hi; lia.
    + cbn. lia.
    + cbn. now rewrite app_nil_r.
  - destruct Hm as [Hm | Hm]; [discriminate |].
    cbn [seq map for_attempts]. unfold bind at 1. rewrite loop_body_eq. cbv zeta.
    replace (transport w (posts w) url invoice (timeout self))
      with (reply self url invoice w 0) by (unfold reply; now rewrite Nat.add_0_r).
    destruct (verdict (reply self url invoice w 0)) as [st |] eqn:Hv.
    + exists st, [record_of (1 + Z.of_nat j) (reply self url invoice w 0)],
             (posted url invoice (timeout self) w).
      split; [reflexivity |].
      constructor; cbn [length].
      * lia.
      * lia.
      * intros [| i] Hi; [| lia]. now rewrite Nat.add_0_r.
      * cbn. lia.
      * reflexivity.
      * reflexivity.
      * intros i Hi; lia.
      * left. exists O. now split.
      * cbn. lia.
      * reflexivity.
    + set (w1 := backed_off self (1 + Z.of_nat j) (posted url invoice (timeout self) w)).
      assert (Ht : transport w1 = transport w)
        by (unfold w1, backed_off; destruct (_ <? _); reflexivity).
      assert (Hr : random w1 = random w)
        by (unfold w1, backed_off; destruct (_ <? _); reflexivity).
      assert (Hp : posts w1 = S (posts w))
        by (unfold w1, backed_off; destruct (_ <? _); reflexivity).
      assert (Hreply : forall i, reply self url invoice w1 i = reply self url invoice w (S i)).
      { intros i. unfold reply. rewrite Ht, Hp. f_equal. lia. }
      destruct (IH (S j) (log ++ [record_of (1 + Z.of_nat j) (reply self url invoice w 0)]) w1)
        as (st & recs & w' & Heq & Hinv).
      { destruct n; [now left | right; lia]. }
      exists st, (record_of (1 + Z.of_nat j) (reply self url invoice w 0) :: recs), w'.
      split; [now rewrite Heq, <- app_assoc |].
      destruct Hinv as [Hlen Hne Hrec Hposts Htr Hrnd Hbef Hend Hdr Hev].
      constructor; cbn [length].
      * lia.
      * lia.
      * intros [| i] Hi; cbn [nth_error].
        -- now rewrite Nat.add_0_r.
        -- rewrite Hrec by lia. rewrite Hreply. do 3 f_equal. lia.
      * lia.
      * congruence.
      * congruence.
      * intros [| i] Hi; [exact Hv |]. rewrite <- Hreply. apply Hbef. lia.
      * destruct Hend as [(i & Hi & Hvi) | (Hk & Hst & Hall)].
        -- left. exists (S i). split; [lia |]. now rewrite <- Hreply.
        -- right. repeat split; [lia | exact Hst |].
           intros [| i] Hi; [exact Hv |]. rewrite <- Hreply. apply Hall. lia.
      * destruct n as [| n].
        -- assert (length recs = O) by lia.
           rewrite Hdr. unfold w1, backed_off.
           replace (1 + Z.of_nat j <? max_retries self) with false
             by (symmetry; apply Z.ltb_ge; lia).
           cbn. lia.
        -- specialize (Hne ltac:(lia)).
           rewrite Hdr. unfold w1, backed_off.
           replace (1 + Z.of_nat j <? max_retries self) with true
             by (symmetry; apply Z.ltb_lt; lia).
           cbn. lia.
      * destruct n as [| n].
        -- assert (Hz : length recs = O) by lia.
           rewrite Hev, Hz. unfold w1, backed_off.
           replace (1 + Z.of_nat j <? max_retries self) with false
             by (symmetry; apply Z.ltb_ge; lia).
           cbn. now rewrite app_nil_r.
        -- specialize (Hne ltac:(lia)).
           rewrite Hev. rewrite (schedule_ext w1 w) by exact Hr.
           unfold w1, backed_off.
           replace (1 + Z.of_nat j <? max_retries self) with true
             by (symmetry; apply Z.ltb_lt; lia).
           cbn [events draws posted].
           destruct (length recs) as [| k] eqn:Hk; [lia |].
           rewrite schedule_step, <- !app_assoc. reflexivity.
Qed.

End Runs.

(** * Properties of [submit_invoice] *)

Lemma submit_invoice_run (self : t) (invoice : PyValue) (mode : string) (w : World) :
  exists st log w',
    submit_invoice self invoice mode w = (Ok (st, log), w')
    /\ run_inv self (submit_url self mode) invoice 0
         (Z.to_nat (max_retries self)) w st log w'.
Proof.
  unfold submit_invoice. rewrite range_from_one.
  destruct (for_attempts_run self (submit_url self mode) invoice
              (Z.to_nat (max_retries self)) 0 [] w) as (st & recs & w' & Heq & Hinv).
  - destruct (Z_le_gt_dec (max_retries self) 0) as [Hle | Hgt].
    + left. lia.
    + right. lia.
  - exists st, recs, w'. split; [exact Heq | exact Hinv].
Qed.


Lemma verdict_submitted (reply : Exc Response.t) :
  verdict reply = Some "SUBMITTED" <->
  exists r, reply = Ok r /\ Response.status_code r = 200 /\ readable r.
Proof.
  unfold verdict, readable. split.
  - destruct reply as [r | e]; [| discriminate].
    destruct (body_of r) as [body | e] eqn:Hb; [| discriminate].
    destruct (Z.eqb_spec (Response.status_code r) 200) as [E | _].
    + intros _. exists r. repeat split; [exact E | now exists body].
    + destruct (_ && _); discriminate.
  - intros (r & -> & E & body & Hb). rewrite Hb, E. reflexivity.
Qed.

Lemma verdict_failed (reply : Exc Response.t) :
  verdict reply = Some "FAILED" <->
  exists r, reply = Ok r /\ 400 <= Response.status_code r < 500 /\ readable r.
Proof.
  unfold verdict, readable. split.
  - destruct reply as [r | e]; [| discriminate].
    destruct (body_of r) as [body | e] eqn:Hb; [| discriminate].
    destruct (Z.eqb_spec (Response.status_code r) 200) as [E | _]; [discriminate |].
    destruct (Z.leb_spec 400 (Response.status_code r));
      destruct (Z.ltb_spec (Response.status_code r) 500); cbn; try discriminate.
    intros _. exists r. repeat split; [lia | lia | now exists body].
  - intros (r & -> & E & body & Hb). rewrite Hb.
    destruct (Z.eqb_spec (Response.status_code r) 200) as [E' | _]; [lia |].
    destruct (Z.leb_spec 400 (Response.status_code r));
      destruct (Z.ltb_spec (Response.status_code r) 500); cbn; try reflexivity; lia.
Qed.

(** ** Scenarios *)

(** Scenario A: three attempts allowed, every reply is a 503. *)
Example scenario_A :
  fst (submit_invoice client3 sample_invoice "success"
         (fresh_world (always (Ok (json_response 503))) (1 # 4)))
  = Ok ("FAILED",
        [mkAttempt 1 (Some 503) (PyDict []);
         mkAttempt 2 (Some 503) (PyDict []);
         mkAttempt 3 (Some 503) (PyDict [])]).
Proof. reflexivity. Qed.

Example scenario_A_events :
  events (snd (submit_invoice client3 sample_invoice "success"
         (fresh_world (always (Ok (json_response 503))) (1 # 4))))
  = [EvPost "https://tax.example/tax/submit?mode=success" sample_invoice 5;
     EvSleep (2 ^ 1 * ((1 # 2) + ((3 # 2) - (1 # 2)) * (1 # 4)))%Q;
     EvPost "https://tax.example/tax/submit?mode=success" sample_invoice 5;
     EvSleep (2 ^ 2 * ((1 # 2) + ((3 # 2) - (1 # 2)) * (1 # 4)))%Q;
     EvPost "https://tax.example/tax/submit?mode=success" sample_invoice 5].
Proof. reflexivity. Qed.

(** Scenario B: a transport failure, then a 200. *)
Example scenario_B :
  fst (submit_invoice client3 sample_invoice "success"
         (fresh_world (fun n => match n with
                                | O => Raise connection_refused
                                | _ => Ok (json_response 200)
                                end) (1 # 4)))
  = Ok ("SUBMITTED",
        [mkAttempt 1 None (PyStr "Connection refused");
         mkAttempt 2 (Some 200) (PyDict [])]).
Proof. reflexivity. Qed.

(** Scenario C: a 422 on the first attempt. *)
Example scenario_C :
  fst (submit_invoice client3 sample_invoice "success"
         (fresh_world (always (Ok (json_response 422))) (1 # 4)))
  = Ok ("FAILED", [mkAttempt 1 (Some 422) (PyDict [])]).
Proof. reflexivity. Qed.

(** Scenario D: two attempts allowed, the connection fails both times. *)
Example scenario_D :
  fst (submit_invoice (__init__ "https://tax.example" 2 2 5) sample_invoice "success"
         (fresh_world (always (Raise connection_refused)) (1 # 4)))
  = Ok ("FAILED",
        [mkAttempt 1 None (PyStr "Connection refused");
         mkAttempt 2 None (PyStr "Connection refused")]).
Proof. reflexivity. Qed.

(** ** No attempt allowed *)

Lemma no_attempts_eq (self : t) (invoice : PyValue) (mode : string) (w : World) :
  max_retries self <= 0 ->
  submit_invoice self invoice mode w = (Ok ("FAILED", []), w).
Proof.
  intros Hm. unfold submit_invoice, range.
  replace (Z.to_nat (max_retries self + 1 - 1)) with O by lia. reflexivity.
Qed.

(** C10. The constructor stores [max_retries] as given; if it is not
    positive, [submit_invoice] sends no request, sleeps never and returns
    ["FAILED"] with an empty attempt log. *)
Theorem no_attempt_allowed (base : string) (retries : Z) (base_q tmo : Q)
    (invoice : PyValue) (mode : string) (w : World) :
  retries <= 0 ->
  max_retries (__init__ base retries base_q tmo) = retries
  /\ submit_invoice (__init__ base retries base_q tmo) invoice mode w
     = (Ok ("FAILED", []), w).
Proof.
  intros Hm. split; [reflexivity |].
  now apply no_attempts_eq.
Qed.

Lemma no_attempt_allowed_witness :
  max_retries (__init__ "https://tax.example" 0 2 5) = 0
  /\ submit_invoice (__init__ "https://tax.example" 0 2 5) sample_invoice "success"
       (fresh_world (always (Ok (json_response 200))) (1 # 4))
     = (Ok ("FAILED", []), fresh_world (always (Ok (json_response 200))) (1 # 4)).
Proof.
  apply (no_attempt_allowed "https://tax.example" 0 2 5 sample_invoice "success").
  lia.
Defined.

(** ** Terminal replies *)

(** C2, as stated, fails: the first attempt receives a 404 whose body is not
    JSON; [response.json()] raises inside the [try], the attempt is recorded
    without a status code, the loop goes on, and the second attempt ends the
    call with ["SUBMITTED"]. *)
Lemma client_error_unreadable_body_retried :
  attempt_reply client3 sample_invoice "success"
    (fresh_world error_page_then_ok (1 # 4)) 1 = Ok (html_response 404)
  /\ 400 <= Response.status_code (html_response 404) < 500
  /\ fst (submit_invoice client3 sample_invoice "success"
            (fresh_world error_page_then_ok (1 # 4)))
     = Ok ("SUBMITTED",
           [mkAttempt 1 None (PyStr "Expecting value: line 1 column 1 (char 0)");
            mkAttempt 2 (Some 200) (PyDict [])])
  /\ posts (snd (submit_invoice client3 sample_invoice "success"
                   (fresh_world error_page_then_ok (1 # 4)))) = 2%nat.
Proof. repeat split; cbn; lia. Qed.

(** C3, as stated, fails: every reply is a 200 whose body is not JSON, and
    the call ends with ["FAILED"] after three requests. *)
Lemma ok_unreadable_body_not_submitted :
  attempt_reply client3 sample_invoice "success"
    (fresh_world (always (Ok (html_response 200))) (1 # 4)) 1 = Ok (html_response 200)
  /\ Response.status_code (html_response 200) = 200
  /\ fst (submit_invoice client3 sample_invoice "success"
            (fresh_world (always (Ok (html_response 200))) (1 # 4)))
     = Ok ("FAILED",
           [mkAttempt 1 None (PyStr "Expecting value: line 1 column 1 (char 0)");
            mkAttempt 2 None (PyStr "Expecting value: line 1 column 1 (char 0)");
            mkAttempt 3 None (PyStr "Expecting value: line 1 column 1 (char 0)")]).
Proof. repeat split. Qed.

(** C3, amended. With at least one attempt allowed: if the first attempt
    receives a response with status code 200 whose body is empty or decodes
    as JSON, the call returns ["SUBMITTED"] with exactly one record; and
    whenever the call returns ["SUBMITTED"], its last attempt received such a
    response. *)
Theorem submitted_iff_ok (self : t) (invoice : PyValue) (mode : string)
    (w w' : World) (st : string) (log : list AttemptRecord) :
  1 <= max_retries self ->
  submit_invoice self invoice mode w = (Ok (st, log), w') ->
  (forall r, attempt_reply self invoice mode w 1 = Ok r ->
             Response.status_code r = 200 -> readable r ->
             st = "SUBMITTED"
             /\ exists body, body_of r = Ok body
                  /\ log = [mkAttempt 1 (Some 200) body])
  /\ (st = "SUBMITTED" ->
      exists r, attempt_reply self invoice mode w (length log) = Ok r
                /\ Response.status_code r = 200 /\ readable r).
Proof.
  intros Hm Heq.
  destruct (submit_invoice_run self invoice mode w) as (st0 & log0 & w0 & Heq0 & Hinv).
  rewrite Heq in Heq0. injection Heq0 as <- <- <-.
  pose proof (run_nonempty _ _ _ _ _ _ _ _ _ Hinv ltac:(lia)) as Hne.
  split.
  - intros r Hr H200 Hread.
    assert (Hv : verdict (reply self (submit_url self mode) invoice w 0)
                 = Some "SUBMITTED").
    { apply verdict_submitted. exists r. now repeat split. }
    assert (Hlen : length log = 1%nat).
    { destruct (Nat.eq_dec (length log) 1) as [E | NE]; [exact E |].
      rewrite (run_before _ _ _ _ _ _ _ _ _ Hinv) in Hv by lia. discriminate. }
    split.
    + destruct (run_end _ _ _ _ _ _ _ _ _ Hinv) as [(i & Hi & Hvi) | (_ & _ & Hall)].
      * replace i with O in Hvi by lia. congruence.
      * rewrite Hall in Hv by lia. discriminate.
    + destruct Hread as [body Hb]. exists body. split; [exact Hb |].
      pose proof (run_records _ _ _ _ _ _ _ _ _ Hinv O ltac:(lia)) as Hrec.
      unfold attempt_reply in Hr. cbn [Nat.pred] in Hr. rewrite Hr in Hrec.
      cbn [record_of] in Hrec. rewrite Hb, H200 in Hrec.
      destruct log as [| x [| y l]]; cbn in Hlen; try discriminate.
      cbn in Hrec. now injection Hrec as ->.
  - intros ->.
    destruct (run_end _ _ _ _ _ _ _ _ _ Hinv) as [(i & Hi & Hvi) | (_ & Hst & _)];
      [| discriminate].
    apply verdict_submitted in Hvi. destruct Hvi as (r & Hr & H200 & Hread).
    exists r. unfold attempt_reply. rewrite Hi. cbn [Nat.pred]. now repeat split.
Qed.

Lemma submitted_iff_ok_witness :
  (forall r, attempt_reply client3 sample_invoice "success"
               (fresh_world (always (Ok (json_response 200))) (1 # 4)) 1 = Ok r ->
             Response.status_code r = 200 -> readable r ->
             "SUBMITTED" = "SUBMITTED"
             /\ exists body, body_of r = Ok body
                  /\ [mkAttempt 1 (Some 200) (PyDict [])] = [mkAttempt 1 (Some 200) body])
  /\ ("SUBMITTED" = "SUBMITTED" ->
      exists r, attempt_reply client3 sample_invoice "success"
                  (fresh_world (always (Ok (json_response 200))) (1 # 4))
                  (length [mkAttempt 1 (Some 200) (PyDict [])]) = Ok r
                /\ Response.status_code r = 200 /\ readable r).
Proof.
  apply (submitted_iff_ok client3 sample_invoice "success"
           (fresh_world (always (Ok (json_response 200))) (1 # 4))
           (snd (submit_invoice client3 sample_invoice "success"
                   (fresh_world (always (Ok (json_response 200))) (1 # 4))))).
  - change (1 <= 3). lia.
  - reflexivity.
Defined.

(** ** Shape of the attempt log *)

(** C7, as stated, fails in its "if and only if": a response was received
    for the only attempt (a 503 whose body is not JSON), yet the record
    carries no status code. *)
Lemma response_received_without_status_code :
  attempt_reply (__init__ "https://tax.example" 1 2 5) sample_invoice "success"
    (fresh_world (always (Ok (html_response 503))) (1 # 4)) 1 = Ok (html_response 503)
  /\ fst (submit_invoice (__init__ "https://tax.example" 1 2 5) sample_invoice "success"
            (fresh_world (always (Ok (html_response 503))) (1 # 4)))
     = Ok ("FAILED",
           [mkAttempt 1 None (PyStr "Expecting value: line 1 column 1 (char 0)")]).
Proof. split; reflexivity. Qed.

(** C7, amended. The call sends one request per record, and the i-th record
    (1-based) carries attempt number i. A record carries a status code
    exactly when a response was received for that attempt and its body is
    empty or decodes as JSON, and the code is that of the response; when
    [requests.post] raised, the record has no status code and holds
    [str(e)]. *)
Theorem attempt_log_shape (self : t) (invoice : PyValue) (mode : string) (w : World) :
  exists st log w',
    submit_invoice self invoice mode w = (Ok (st, log), w')
    /\ posts w' = (posts w + length log)%nat
    /\ forall k, (1 <= k <= length log)%nat ->
         exists rec,
           nth_error log (Nat.pred k) = Some rec
           /\ attempt rec = Z.of_nat k
           /\ (forall sc, status_code rec = Some sc <->
                 exists r, attempt_reply self invoice mode w k = Ok r
                           /\ Response.status_code r = sc /\ readable r)
           /\ (forall e, attempt_reply self invoice mode w k = Raise e ->
                 status_code rec = None /\ response rec = PyStr (str e)).
Proof.
  destruct (submit_invoice_run self invoice mode w) as (st & log & w' & Heq & Hinv).
  exists st, log, w'. split; [exact Heq |].
  split; [exact (run_posts _ _ _ _ _ _ _ _ _ Hinv) |].
  intros k Hk.
  exists (record_of (Z.of_nat k) (attempt_reply self invoice mode w k)).
  split.
  { rewrite (run_records _ _ _ _ _ _ _ _ _ Hinv) by lia.
    unfold attempt_reply. do 2 f_equal. lia. }
  unfold record_of, readable.
  destruct (attempt_reply self invoice mode w k) as [r | e].
  - destruct (body_of r) as [body | e] eqn:Hb; cbn.
    + split; [reflexivity |]. split; [| discriminate].
      intros sc. split.
      * intros [= <-]. exists r. repeat split. now exists body.
      * intros (r' & [= <-] & <- & _). reflexivity.
    + split; [reflexivity |]. split; [| discriminate].
      intros sc. split; [discriminate |].
      intros (r' & [= <-] & _ & body & Hb'). congruence.
  - cbn. split; [reflexivity |]. split.
    + intros sc. split; [discriminate |]. intros (r & Hr & _). discriminate.
    + intros e' [= <-]. now split.
Qed.

(** ** Repeated calls *)

(** C9, as stated, fails: against a transport that always answers 200 with a
    body that is not JSON, both calls return three records. *)
Lemma always_ok_unreadable_three_records :
  fst (submit_invoice client3 sample_invoice "success"
         (fresh_world (always (Ok (html_response 200))) (1 # 4)))
  = Ok ("FAILED",
        [mkAttempt 1 None (PyStr "Expecting value: line 1 column 1 (char 0)");
         mkAttempt 2 None (PyStr "Expecting value: line 1 column 1 (char 0)");
         mkAttempt 3 None (PyStr "Expecting value: line 1 column 1 (char 0)")])
  /\ fst (submit_invoice client3 sample_invoice "success"
            (snd (submit_invoice client3 sample_invoice "success"
                    (fresh_world (always (Ok (html_response 200))) (1 # 4)))))
     = Ok ("FAILED",
           [mkAttempt 1 None (PyStr "Expecting value: line 1 column 1 (char 0)");
            mkAttempt 2 None (PyStr "Expecting value: line 1 column 1 (char 0)");
            mkAttempt 3 None (PyStr "Expecting value: line 1 column 1 (char 0)")]).
Proof. split; reflexivity. Qed.

(** C9, amended. With at least one attempt allowed, against a transport that
    answers every request with the same status-200 response whose body is
    empty or decodes as JSON, two calls in a row on the same client with the
    same input return the same result: ["SUBMITTED"] and one record, numbered
    1; the second call sees nothing of the first but the world it left. *)
Theorem repeated_submission (self : t) (invoice : PyValue) (mode : string)
    (w : World) (r : Response.t) (body : PyValue) :
  1 <= max_retries self ->
  (forall n url json tmo, transport w n url json tmo = Ok r) ->
  Response.status_code r = 200 ->
  body_of r = Ok body ->
  exists w1 w2,
    submit_invoice self invoice mode w
      = (Ok ("SUBMITTED", [mkAttempt 1 (Some 200) body]), w1)
    /\ submit_invoice self invoice mode w1
      = (Ok ("SUBMITTED", [mkAttempt 1 (Some 200) body]), w2)
    /\ posts w1 = S (posts w) /\ posts w2 = S (posts w1).
Proof.
  intros Hm Hall H200 Hb.
  assert (Hone : forall v, transport v = transport w ->
            submit_invoice self invoice mode v
            = (Ok ("SUBMITTED", [mkAttempt 1 (Some 200) body]),
               posted (submit_url self mode) invoice (timeout self) v)).
  { intros v Hv. unfold submit_invoice. rewrite range_from_one.
    destruct (Z.to_nat (max_retries self)) as [| n] eqn:Hn; [lia |].
    cbn [seq map for_attempts]. unfold bind at 1. rewrite loop_body_eq. cbv zeta.
    rewrite Hv, Hall. unfold verdict, record_of. rewrite Hb, H200. reflexivity. }
  exists (posted (submit_url self mode) invoice (timeout self) w),
         (posted (submit_url self mode) invoice (timeout self)
            (posted (submit_url self mode) invoice (timeout self) w)).
  split; [now apply Hone |]. split; [now apply Hone |]. split; reflexivity.
Qed.

Lemma repeated_submission_witness :
  exists w1 w2,
    submit_invoice client3 sample_invoice "success"
      (fresh_world (always (Ok (json_response 200))) (1 # 4))
      = (Ok ("SUBMITTED", [mkAttempt 1 (Some 200) (PyDict [])]), w1)
    /\ submit_invoice client3 sample_invoice "success" w1
      = (Ok ("SUBMITTED", [mkAttempt 1 (Some 200) (PyDict [])]), w2)
    /\ posts w1 = S (posts (fresh_world (always (Ok (json_response 200))) (1 # 4)))
    /\ posts w2 = S (posts w1).
Proof.
  apply (repeated_submission client3 sample_invoice "success"
           (fresh_world (always (Ok (json_response 200))) (1 # 4))
           (json_response 200) (PyDict [])).
  - change (1 <= 3). lia.
  - reflexivity.
  - reflexivity.
  - reflexivity.
Defined.

(** ** Configuration errors *)

(** C8, as stated, fails: a client built with a malformed base address is
    constructed and called like any other, the transport's rejection is
    recorded at each of the two attempts, and the call returns the ordinary
    outcome ["FAILED"]; a client built with retry count 0 also returns
    ["FAILED"], with an empty log. *)
Lemma configuration_errors_return_failed :
  fst (submit_invoice (__init__ "not a url" 2 2 5) sample_invoice "success"
         (fresh_world (always (Raise no_scheme)) (1 # 4)))
  = Ok ("FAILED",
        [mkAttempt 1 None (PyStr (str no_scheme));
         mkAttempt 2 None (PyStr (str no_scheme))])
  /\ posts (snd (submit_invoice (__init__ "not a url" 2 2 5) sample_invoice "success"
                   (fresh_world (always (Raise no_scheme)) (1 # 4)))) = 2%nat
  /\ fst (submit_invoice (__init__ "https://tax.example" 0 2 5) sample_invoice "success"
            (fresh_world (always (Ok (json_response 200))) (1 # 4)))
     = Ok ("FAILED", []).
Proof. repeat split. Qed.

(** ** Backoff *)

Section Schedule.

Variables (self : t) (url : string) (invoice : PyValue) (w : World).

Lemma schedule_length (k : nat) : forall j d,
  length (schedule self url invoice w j d k) = Nat.pred (2 * k).
Proof.
  induction k as [| k IH]; intros j d; [reflexivity |].
  destruct k as [| k]; [reflexivity |].
  rewrite schedule_step. cbn [length]. rewrite (IH (S j) (S d)). lia.
Qed.

Lemma schedule_post (k : nat) : forall j d i,
  (i < k)%nat ->
  nth_error (schedule self url invoice w j d k) (2 * i)
  = Some (EvPost url invoice (timeout self)).
Proof.
  induction k as [| k IH]; intros j d i Hi; [lia |].
  destruct i as [| i]; [reflexivity |].
  destruct k as [| k]; [lia |].
  rewrite schedule_step. replace (2 * S i)%nat with (S (S (2 * i))) by lia.
  cbn [nth_error]. apply IH. lia.
Qed.

Lemma schedule_sleep (k : nat) : forall j d i,
  (S i < k)%nat ->
  nth_error (schedule self url invoice w j d k) (S (2 * i))
  = Some (EvSleep (delay self w (1 + Z.of_nat (j + i)) (d + i))).
Proof.
  induction k as [| k IH]; intros j d i Hi; [lia |].
  destruct k as [| k]; [lia |].
  rewrite schedule_step.
  destruct i as [| i].
  - cbn [nth_error Nat.mul Nat.add]. now rewrite !Nat.add_0_r.
  - replace (S (2 * S i)) with (S (S (S (2 * i)))) by lia.
    change (nth_error (schedule self url invoice w (S j) (S d) (S k)) (S (2 * i))
            = Some (EvSleep (delay self w (1 + Z.of_nat (j + S i)) (d + S i)))).
    rewrite (IH (S j) (S d) i) by lia.
    do 3 f_equal; [do 2 f_equal |]; lia.
Qed.

Lemma delay_bounds (a : Z) (d : nat) :
  (0 < backoff_base self)%Q ->
  (0 <= random w d)%Q -> (random w d < 1)%Q ->
  (backoff_base self ^ a * (1 # 2) <= delay self w a d)%Q
  /\ (delay self w a d < backoff_base self ^ a * (3 # 2))%Q.
Proof.
  intros Hb H0 H1. unfold delay.
  pose proof (Qpower_0_lt (backoff_base self) a Hb) as Hpow.
  split.
  - apply Qmult_le_l; [exact Hpow | lra].
  - apply Qmult_lt_l; [exact Hpow | lra].
Qed.

End Schedule.

(** * Further properties of [submit_invoice] *)

Lemma carries_on_verdict (reply : Exc Response.t) :
  carries_on reply <-> verdict reply = None.
Proof.
  unfold carries_on, verdict, readable. destruct reply as [r | e]; [| tauto].
  destruct (body_of r) as [body | e] eqn:Hb.
  - destruct (Z.eqb_spec (Response.status_code r) 200) as [E | NE].
    + split; [| discriminate]. intros [Hx | [Hx _]]; [| contradiction].
      exfalso. apply Hx. now exists body.
    + destruct (Z.leb_spec 400 (Response.status_code r));
        destruct (Z.ltb_spec (Response.status_code r) 500); cbn.
      * split; [| discriminate]. intros [Hx | [_ Hx]]; exfalso.
        -- apply Hx. now exists body.
        -- apply Hx. lia.
      * split; [reflexivity |]. intros _. right. split; [exact NE | lia].
      * split; [reflexivity |]. intros _. right. split; [exact NE | lia].
      * split; [reflexivity |]. intros _. right. split; [exact NE | lia].
  - split; [reflexivity |]. intros _. left. intros [body Hb']. congruence.
Qed.




Lemma record_of_status (a : Z) (reply : Exc Response.t) (sc : Z) :
  status_code (record_of a reply) = Some sc <->
  exists r, reply = Ok r /\ Response.status_code r = sc /\ readable r.
Proof.
  unfold record_of, readable. destruct reply as [r | e].
  - destruct (body_of r) as [body | e] eqn:Hb; cbn.
    + split.
      * intros [= <-]. exists r. repeat split. now exists body.
      * intros (r' & [= <-] & <- & _). reflexivity.
    + split; [discriminate |]. intros (r' & [= <-] & _ & body & Hb'). congruence.
  - cbn. split; [discriminate |]. intros (r & Hr & _). discriminate.
Qed.


Lemma truthy_empty (s : string) : truthy s = false <-> s = "".
Proof. destruct s; cbn; split; intros H; congruence. Qed.



(** X5. The status can be read off the returned log: the call returns
    ["SUBMITTED"] exactly when the last record carries status code 200, and
    no record before the last carries status code 200 or a 4xx. *)
Theorem status_read_off_last_record (self : t) (invoice : PyValue) (mode : string)
    (w : World) :
  exists st log w',
    submit_invoice self invoice mode w = (Ok (st, log), w')
    /\ (st = "SUBMITTED" <->
        exists rec, nth_error log (Nat.pred (length log)) = Some rec
                    /\ status_code rec = Some 200)
    /\ (forall i rec sc, (S i < length log)%nat ->
          nth_error log i = Some rec -> status_code rec = Some sc ->
          sc <> 200 /\ ~ (400 <= sc < 500)).
Proof.
  destruct (submit_invoice_run self invoice mode w) as (st & log & w' & Heq & Hinv).
  exists st, log, w'. split; [exact Heq |].
  set (url := submit_url self mode) in *.
  split; [split |].
  - intros ->.
    destruct (run_end _ _ _ _ _ _ _ _ _ Hinv) as [(i & Hi & Hv) | (_ & Hst & _)];
      [| discriminate].
    exists (record_of (1 + Z.of_nat (0 + i)) (reply self url invoice w i)).
    rewrite Hi. cbn [Nat.pred].
    split; [apply (run_records _ _ _ _ _ _ _ _ _ Hinv); lia |].
    apply record_of_status. apply verdict_submitted in Hv.
    destruct Hv as (r & Hr & H200 & Hread). exists r. now repeat split.
  - intros (rec & Hnth & Hsc).
    assert (Hlt : (Nat.pred (length log) < length log)%nat)
      by (apply nth_error_Some; congruence).
    rewrite (run_records _ _ _ _ _ _ _ _ _ Hinv) in Hnth by exact Hlt.
    injection Hnth as <-. apply record_of_status in Hsc.
    assert (Hv : verdict (reply self url invoice w (Nat.pred (length log)))
                 = Some "SUBMITTED") by (now apply verdict_submitted).
    destruct (run_end _ _ _ _ _ _ _ _ _ Hinv) as [(i & Hi & Hvi) | (_ & _ & Hall)].
    + replace i with (Nat.pred (length log)) in Hvi by lia. congruence.
    + rewrite Hall in Hv by exact Hlt. discriminate.
  - intros i rec sc Hi Hnth Hsc.
    rewrite (run_records _ _ _ _ _ _ _ _ _ Hinv) in Hnth by lia.
    injection Hnth as <-. apply record_of_status in Hsc.
    destruct Hsc as (r & Hr & <- & Hread).
    pose proof (run_before _ _ _ _ _ _ _ _ _ Hinv i Hi) as Hv.
    apply carries_on_verdict in Hv. rewrite Hr in Hv. cbn in Hv.
    destruct Hv as [Hx | Hx]; [contradiction | exact Hx].
Qed.



Lemma power_sum_nonneg (b : Q) (n : nat) : forall from,
  (0 < b)%Q -> (0 <= power_sum b from n)%Q.
Proof.
  induction n as [| n IH]; intros from Hb; cbn [power_sum]; [lra |].
  pose proof (Qpower_0_lt b (Z.of_nat from) Hb). specialize (IH (S from) Hb). lra.
Qed.

Lemma power_sum_le (b : Q) (n : nat) : forall from m,
  (0 < b)%Q -> (n <= m)%nat -> (power_sum b from n <= power_sum b from m)%Q.
Proof.
  induction n as [| n IH]; intros from m Hb Hnm.
  - apply power_sum_nonneg. exact Hb.
  - destruct m as [| m]; [lia |]. cbn [power_sum].
    specialize (IH (S from) m Hb ltac:(lia)). lra.
Qed.

Lemma total_sleep_schedule (self : t) (url : string) (invoice : PyValue) (w : World)
    (k : nat) : forall j d,
  (0 < backoff_base self)%Q ->
  (forall n, (0 <= random w n)%Q /\ (random w n < 1)%Q) ->
  ((1 # 2) * power_sum (backoff_base self) (S j) (Nat.pred k)
   <= total_sleep (schedule self url invoice w j d k))%Q
  /\ (total_sleep (schedule self url invoice w j d k)
      <= (3 # 2) * power_sum (backoff_base self) (S j) (Nat.pred k))%Q.
Proof.
  induction k as [| k IH]; intros j d Hb Hrnd; [cbn; lra |].
  destruct k as [| k]; [cbn; lra |].
  rewrite schedule_step. cbn [total_sleep Nat.pred power_sum].
  destruct (IH (S j) (S d) Hb Hrnd) as [IHlo IHhi]. cbn [Nat.pred] in IHlo, IHhi.
  destruct (delay_bounds self w (1 + Z.of_nat j) d Hb
              (proj1 (Hrnd d)) (proj2 (Hrnd d))) as [Hlo Hhi].
  replace (Z.of_nat (S j)) with (1 + Z.of_nat j) by lia.
  split; lra.
Qed.

(** X7. With a positive backoff base and [random.random] drawing from
    [0, 1), the time a call sleeps in total lies between half and one and a
    half times [b^1 + ... + b^(n-1)], [n] being the number of records; it is
    therefore at most [1.5 * (b^1 + ... + b^(max_retries - 1))], a bound that
    depends on the configuration only. *)
Theorem total_sleep_bounded (self : t) (invoice : PyValue) (mode : string) (w : World) :
  (0 < backoff_base self)%Q ->
  (forall n, (0 <= random w n)%Q /\ (random w n < 1)%Q) ->
  exists st log w' added,
    submit_invoice self invoice mode w = (Ok (st, log), w')
    /\ events w' = events w ++ added
    /\ ((1 # 2) * power_sum (backoff_base self) 1 (Nat.pred (length log))
        <= total_sleep added)%Q
    /\ (total_sleep added
        <= (3 # 2) * power_sum (backoff_base self) 1 (Nat.pred (length log)))%Q
    /\ (total_sleep added
        <= (3 # 2) * power_sum (backoff_base self) 1
                       (Nat.pred (Z.to_nat (max_retries self))))%Q.
Proof.
  intros Hb Hrnd.
  destruct (submit_invoice_run self invoice mode w) as (st & log & w' & Heq & Hinv).
  exists st, log, w',
    (schedule self (submit_url self mode) invoice w 0 (draws w) (length log)).
  split; [exact Heq |].
  split; [exact (run_events _ _ _ _ _ _ _ _ _ Hinv) |].
  destruct (total_sleep_schedule self (submit_url self mode) invoice w (length log)
              0 (draws w) Hb Hrnd) as [Hlo Hhi].
  split; [exact Hlo |]. split; [exact Hhi |].
  pose proof (run_len _ _ _ _ _ _ _ _ _ Hinv) as Hlen.
  pose proof (power_sum_le (backoff_base self) (Nat.pred (length log)) 1
                (Nat.pred (Z.to_nat (max_retries self))) Hb ltac:(lia)) as Hmono.
  lra.
Qed.

Lemma total_sleep_bounded_witness :
  exists st log w' added,
    submit_invoice client3 sample_invoice "success"
      (fresh_world (always (Ok (json_response 503))) (1 # 4)) = (Ok (st, log), w')
    /\ events w' = events (fresh_world (always (Ok (json_response 503))) (1 # 4)) ++ added
    /\ ((1 # 2) * power_sum (backoff_base client3) 1 (Nat.pred (length log))
        <= total_sleep added)%Q
    /\ (total_sleep added
        <= (3 # 2) * power_sum (backoff_base client3) 1 (Nat.pred (length log)))%Q
    /\ (total_sleep added
        <= (3 # 2) * power_sum (backoff_base client3) 1
                       (Nat.pred (Z.to_nat (max_retries client3))))%Q.
Proof.
  apply (total_sleep_bounded client3 sample_invoice "success"
           (fresh_world (always (Ok (json_response 503))) (1 # 4))).
  - reflexivity.
  - intros n. split; [discriminate | reflexivity].
Defined.



(** With the module-level defaults, one call sleeps at most 9 seconds. *)
Example default_total_sleep_bound :
  ((3 # 2) * power_sum (backoff_base client3) 1
               (Nat.pred (Z.to_nat (max_retries client3))) == 9)%Q.
Proof. reflexivity. Qed.

(** * Properties of the submit route *)

Lemma add_responses_eq (invoiceId : Z) (attempts : list AttemptRecord) :
  forall db,
    App.add_responses invoiceId attempts db
    = db ++ map (fun att => Add (InvoiceResponseDB.mk (str_int invoiceId)
                                   (attempt att) (status_code att) (response att)))
                attempts.
Proof.
  unfold App.add_responses.
  induction attempts as [| att rest IH]; intros db; cbn [fold_left map].
  - now rewrite app_nil_r.
  - rewrite IH, <- app_assoc. reflexivity.
Qed.

Lemma route_run (TAX_API_URL : string) (invoice : Invoice.t) (mode : string)
    (db : Session) (w : World) :
  exists st log w',
    run_inv (App.client TAX_API_URL) (submit_url (App.client TAX_API_URL) mode)
      (Invoice.dict invoice) 0 3 w st log w'
    /\ App.submit_invoice TAX_API_URL invoice mode db w
       = (Ok (App.mkResult (Invoice.invoiceId invoice) st log,
              db ++ Merge (InvoiceDB.mk (str_int (Invoice.invoiceId invoice)) st)
                 :: Commit
                 :: map (fun att =>
                           Add (InvoiceResponseDB.mk
                                  (str_int (Invoice.invoiceId invoice))
                                  (attempt att) (status_code att) (response att)))
                        log
                 ++ [Commit]),
          w').
Proof.
  destruct (submit_invoice_run (App.client TAX_API_URL) (Invoice.dict invoice) mode w)
    as (st & log & w' & Heq & Hinv).
  exists st, log, w'. split; [exact Hinv |].
  unfold App.submit_invoice, bind. rewrite Heq. unfold ret.
  rewrite add_responses_eq. do 2 f_equal. f_equal.
  rewrite <- !app_assoc. reflexivity.
Qed.


(** X9. What the submit route returns agrees with what it stores: the
    returned invoice id is the request's, the returned status is the status
    of the [invoices] row, the returned attempts are the [invoice_responses]
    rows field by field, and the status is ["SUBMITTED"] exactly when the
    last row added carries status code 200. *)
Theorem route_returns_what_it_stores (TAX_API_URL : string) (invoice : Invoice.t)
    (mode : string) (db : Session) (w : World) :
  exists res db' w' inv rows,
    App.submit_invoice TAX_API_URL invoice mode db w = (Ok (res, db'), w')
    /\ db' = db ++ Merge inv :: Commit :: map Add rows ++ [Commit]
    /\ App.invoice_id res = Invoice.invoiceId invoice
    /\ App.status res = InvoiceDB.status inv
    /\ App.attempts res
       = map (fun row => mkAttempt (InvoiceResponseDB.attempt row)
                           (InvoiceResponseDB.status_code row)
                           (InvoiceResponseDB.response row)) rows
    /\ (App.status res = "SUBMITTED" <->
        exists row, nth_error rows (Nat.pred (length rows)) = Some row
                    /\ InvoiceResponseDB.status_code row = Some 200).
Proof.
  destruct (route_run TAX_API_URL invoice mode db w) as (st & log & w' & Hinv & Heq).
  set (url := submit_url (App.client TAX_API_URL) mode) in *.
  set (body := Invoice.dict invoice) in *.
  eexists _, _, w', (InvoiceDB.mk (str_int (Invoice.invoiceId invoice)) st),
    (map (fun att => InvoiceResponseDB.mk (str_int (Invoice.invoiceId invoice))
                       (attempt att) (status_code att) (response att)) log).
  split; [exact Heq |].
  split; [now rewrite map_map |].
  split; [reflexivity |]. split; [reflexivity |].
  split.
  { cbn [App.attempts]. rewrite map_map. cbn.
    rewrite <- (map_id log) at 1. apply map_ext. now intros []. }
  cbn [App.status]. rewrite length_map.
  split.
  - intros ->.
    destruct (run_end _ _ _ _ _ _ _ _ _ Hinv) as [(i & Hi & Hv) | (_ & Hst & _)];
      [| discriminate].
    eexists. rewrite nth_error_map, Hi. cbn [Nat.pred].
    rewrite (run_records _ _ _ _ _ _ _ _ _ Hinv) by lia. cbn [option_map].
    split; [reflexivity |]. cbn [InvoiceResponseDB.status_code].
    apply record_of_status. apply verdict_submitted in Hv.
    destruct Hv as (r & Hr & H200 & Hread). exists r. now repeat split.
  - intros (row & Hnth & Hsc). rewrite nth_error_map in Hnth.
    destruct (nth_error log (Nat.pred (length log))) as [att |] eqn:Hatt;
      [| discriminate].
    injection Hnth as <-. cbn in Hsc.
    assert (Hlt : (Nat.pred (length log) < length log)%nat)
      by (apply nth_error_Some; congruence).
    rewrite (run_records _ _ _ _ _ _ _ _ _ Hinv) in Hatt by exact Hlt.
    injection Hatt as <-. apply record_of_status in Hsc.
    assert (Hv : verdict (reply (App.client TAX_API_URL) url body w
                            (Nat.pred (length log))) = Some "SUBMITTED")
      by (now apply verdict_submitted).
    destruct (run_end _ _ _ _ _ _ _ _ _ Hinv) as [(i & Hi & Hvi) | (_ & _ & Hall)].
    + replace i with (Nat.pred (length log)) in Hvi by lia. congruence.
    + rewrite Hall in Hv by exact Hlt. discriminate.
Qed.

(** One call of the route, answered by a 200. *)
Example route_once :
  fst (App.submit_invoice "https://tax.example" sample_order "success" []
         (fresh_world (always (Ok (json_response 200))) (1 # 4)))
  = Ok (App.mkResult 1001 "SUBMITTED" [mkAttempt 1 (Some 200) (PyDict [])],
        [Merge (InvoiceDB.mk "1001" "SUBMITTED"); Commit;
         Add (InvoiceResponseDB.mk "1001" 1 (Some 200) (PyDict [])); Commit]).
Proof. reflexivity. Qed.

(** * The loop with every exception *)

Lemma py_loop_body_eq (self : t) (url : string) (invoice : PyValue)
    (a : Z) (log : list AttemptRecord) (w : Py.World) :
  Py.loop_body self url invoice a log w =
  let w1 := py_posted url invoice (timeout self) w in
  match Py.transport w (Py.posts w) url invoice (timeout self) with
  | Returned r => py_step self a log w1 (Ok r)
  | Raised (RequestError e) => py_step self a log w1 (Raise e)
  | Raised (OtherError class) => (Raised (OtherError class), w1)
  end.
Proof.
  unfold Py.loop_body, Py.try_except, Py.try_block, Py.except_block, Py.bind,
    Py.requests_post, Py.backoff, Py.random_uniform, Py.time_sleep, Py.lift_json,
    Py.ret, py_step, sleep_error, verdict, record_of, body_of,
    py_posted, py_slept, py_drawn; cbn.
  destruct (Py.transport w (Py.posts w) url invoice (timeout self)) as [r | [e | c]]; cbn.
  - destruct (truthy (Response.content r)); cbn.
    + destruct (Response.json r) as [body | e]; cbn.
      * destruct (Response.status_code r =? 200); cbn; [reflexivity |].
        destruct ((400 <=? Response.status_code r) && (Response.status_code r <? 500));
          cbn; [reflexivity |].
        destruct (a <? max_retries self); cbn; [| reflexivity].
        destruct (Qle_bool 0 _); destruct (Qle_bool _ _); reflexivity.
      * destruct (a <? max_retries self); cbn; [| reflexivity].
        destruct (Qle_bool 0 _); destruct (Qle_bool _ _); reflexivity.
    + destruct (Response.status_code r =? 200); cbn; [reflexivity |].
      destruct ((400 <=? Response.status_code r) && (Response.status_code r <? 500));
        cbn; [reflexivity |].
      destruct (a <? max_retries self); cbn; [| reflexivity].
      destruct (Qle_bool 0 _); destruct (Qle_bool _ _); reflexivity.
  - destruct (a <? max_retries self); cbn; [| reflexivity].
    destruct (Qle_bool 0 _); destruct (Qle_bool _ _); reflexivity.
  - reflexivity.
Qed.

Section PyRuns.

Variables (self : t) (url : string) (invoice : PyValue).

Lemma py_schedule_step (post : Event) (delay : nat -> nat -> Q) (j d k : nat) :
  py_schedule post delay j d (S (S k)) =
  post :: EvSleep (delay (S j) d) :: py_schedule post delay (S j) (S d) (S k).
Proof. reflexivity. Qed.

Lemma py_schedule_ext (post : Event) (f g : nat -> nat -> Q) (k : nat) :
  (forall a d, f a d = g a d) ->
  forall j d, py_schedule post f j d k = py_schedule post g j d k.
Proof.
  intros Hfg. induction k as [| k IH]; intros j d; [reflexivity |].
  destruct k as [| k]; [reflexivity |].
  now rewrite !py_schedule_step, Hfg, (IH (S j) (S d)).
Qed.

Lemma py_inv_step (j n' : nat) (w w2 w' : Py.World) (log : list AttemptRecord)
    (seen : Exc Response.t) (res : Outcome (string * list AttemptRecord)) (p' : nat) :
  caught (py_reply_from self url invoice w 0) = Some seen ->
  verdict seen = None ->
  Py.posts w2 = S (Py.posts w) ->
  Py.transport w2 = Py.transport w ->
  Py.uniform w2 = Py.uniform w ->
  Py.sleep_max w2 = Py.sleep_max w ->
  (n' = O /\ Py.draws w2 = Py.draws w
   /\ Py.events w2 = Py.events w ++ [EvPost url invoice (timeout self)])
  \/ ((0 < n')%nat /\ Py.draws w2 = S (Py.draws w)
      /\ Py.events w2
         = Py.events w ++ [EvPost url invoice (timeout self);
                            EvSleep (py_delay_at self w (S j) (Py.draws w))]
      /\ sleep_error w (py_delay_at self w (S j) (Py.draws w)) = None) ->
  py_inv self url invoice (S j) n' w2 (log ++ [record_of (1 + Z.of_nat j) seen])
    res w' p' ->
  py_inv self url invoice j (S n') w log res w' (S p').
Proof.
  intros Hseen Hv Hp2 Ht2 Hu2 Hs2 Hcase Hinv.
  destruct Hinv as [Hle Hpos Hposts Htr Hun Hsm Hbef Hsl Hev Hres].
  assert (Hreply : forall i, py_reply_from self url invoice w2 i
                             = py_reply_from self url invoice w (S i)).
  { intros i. unfold py_reply_from. rewrite Ht2, Hp2. f_equal. lia. }
  assert (Hdelay : forall a d, py_delay_at self w2 a d = py_delay_at self w a d)
    by (intros a d; unfold py_delay_at; now rewrite Hu2).
  assert (Herr : forall s, sleep_error w2 s = sleep_error w s)
    by (intros s; unfold sleep_error; now rewrite Hs2).
  assert (Hcarry0 : py_carries_on (py_reply_from self url invoice w 0))
    by (exists seen; now split).
  assert (Hp' : (0 < n')%nat -> (0 < p')%nat) by exact Hpos.
  assert (Hd2 : (0 < p')%nat -> Py.draws w2 = S (Py.draws w)).
  { intros Hp. destruct Hcase as [(Hn & _) | (_ & Hd & _)]; [lia | exact Hd]. }
  constructor.
  - lia.
  - lia.
  - lia.
  - congruence.
  - congruence.
  - congruence.
  - intros [| i] Hi; [exact Hcarry0 |]. rewrite <- Hreply. apply Hbef. lia.
  - intros [| i] Hi.
    + destruct Hcase as [(Hn & _) | (_ & _ & _ & Hok)]; [lia |].
      now rewrite !Nat.add_0_r.
    + specialize (Hsl i ltac:(lia)). rewrite Herr, Hdelay in Hsl.
      rewrite Hd2 in Hsl by lia.
      replace (S (j + S i)) with (S (S j + i)) by lia.
      replace (Py.draws w + S i)%nat with (S (Py.draws w) + i)%nat by lia.
      exact Hsl.
  - rewrite Hev. rewrite (py_schedule_ext _ _ _ p' Hdelay).
    destruct Hcase as [(Hn & Hd & He) | (Hn & Hd & He & _)].
    + assert (p' = O) by lia. subst p'. cbn. now rewrite app_nil_r.
    + rewrite He, Hd. destruct p' as [| p']; [lia |].
      rewrite py_schedule_step, <- !app_assoc. reflexivity.
  - destruct res as [[st lg] | e].
    + destruct Hres as (recs & Hlg & Hlen & Hrec & Hend & Hdr).
      exists (record_of (1 + Z.of_nat j) seen :: recs).
      split; [now rewrite Hlg, <- app_assoc |].
      split; [cbn; lia |].
      split.
      { intros [| i] Hi.
        - exists seen. split; [exact Hseen |]. cbn. now rewrite Nat.add_0_r.
        - destruct (Hrec i ltac:(lia)) as (sn & Hc & Hn).
          exists sn. rewrite <- Hreply. split; [exact Hc |].
          cbn [nth_error]. rewrite Hn. do 3 f_equal. lia. }
      split.
      { destruct Hend as [(i & sn & Hi & Hc & Hvi) | (Hn & Hst & Hall)].
        - left. exists (S i), sn. rewrite <- Hreply. repeat split; [lia | exact Hc | exact Hvi].
        - right. repeat split; [lia | exact Hst |].
          intros [| i] Hi; [exact Hcarry0 |]. rewrite <- Hreply. apply Hall. lia. }
      destruct p' as [| p']; cbn [Nat.pred].
      * destruct Hcase as [(Hn & Hd & _) | (Hn & _)]; [| specialize (Hpos Hn); lia].
        rewrite Hdr, Hd. cbn. lia.
      * rewrite Hdr, Hd2 by lia. cbn. lia.
    + destruct Hres as (i & Hi & Hwhy).
      exists (S i). split; [lia |].
      destruct Hwhy as [(Hr & Hc) | (Hc & Hlt & Hse)].
      * left. rewrite <- Hreply. now split.
      * right. rewrite <- Hreply. split; [exact Hc |]. split; [lia |].
        rewrite Herr, Hdelay, Hd2 in Hse by lia.
        replace (S (j + S i)) with (S (S j + i)) by lia.
        replace (Py.draws w + S i)%nat with (S (Py.draws w) + i)%nat by lia.
        exact Hse.
Qed.

Lemma py_for_attempts_run (n : nat) :
  forall (j : nat) (log : list AttemptRecord) (w : Py.World),
    n = O \/ Z.of_nat (j + n) = max_retries self ->
    exists res w' p,
      Py.for_attempts self url invoice (map (fun i => 1 + Z.of_nat i) (seq j n)) log w
        = (res, w')
      /\ py_inv self url invoice j n w log res w' p.
Proof.
  induction n as [| n IH]; intros j log w Hm.
  - exists (Returned ("FAILED", log)), w, O. split; [reflexivity |].
    constructor; try reflexivity; try lia.
    + cbn. now rewrite app_nil_r.
    + exists []. rewrite app_nil_r.
      split; [reflexivity |]. split; [reflexivity |].
      split; [intros i Hi; lia |].
      split; [right; repeat split; intros i Hi; lia | cbn; lia].
  - destruct Hm as [Hm | Hm]; [discriminate |].
    cbn [seq map Py.for_attempts]. unfold Py.bind at 1.
    rewrite py_loop_body_eq. cbv zeta.
    set (w1 := py_posted url invoice (timeout self) w).
    assert (Hr0 : Py.transport w (Py.posts w) url invoice (timeout self)
                  = py_reply_from self url invoice w 0)
      by (unfold py_reply_from; now rewrite Nat.add_0_r).
    rewrite Hr0.
    assert (Hstep : forall seen,
              caught (py_reply_from self url invoice w 0) = Some seen ->
              exists res w' p,
                match py_step self (1 + Z.of_nat j) log w1 seen with
                | (Returned flow, w'0) =>
                    match flow with
                    | Return result => Py.ret result
                    | Next lg =>
                        Py.for_attempts self url invoice
                          (map (fun i => 1 + Z.of_nat i) (seq (S j) n)) lg
                    end w'0
                | (Raised e, w'0) => (Raised e, w'0)
                end = (res, w')
                /\ py_inv self url invoice j (S n) w log res w' p).
    { intros seen Hseen. unfold py_step.
      destruct (verdict seen) as [st |] eqn:Hv.
      - exists (Returned (st, log ++ [record_of (1 + Z.of_nat j) seen])), w1, 1%nat.
        split; [reflexivity |].
        constructor; try reflexivity; try lia; try (unfold w1; cbn; lia).
        exists [record_of (1 + Z.of_nat j) seen].
          split; [reflexivity |]. split; [reflexivity |].
          split.
          { intros [| i] Hi; [| lia]. exists seen. split; [exact Hseen |].
            cbn. now rewrite Nat.add_0_r. }
          split; [left; exists O, seen; now repeat split | cbn; lia].
      - destruct (Z.ltb_spec (1 + Z.of_nat j) (max_retries self)) as [Hlt | Hge].
        + assert (Hsec : (backoff_base self ^ (1 + Z.of_nat j)
                          * Py.uniform w1 (Py.draws w1) (1 # 2) (3 # 2))%Q
                         = py_delay_at self w (S j) (Py.draws w)).
          { unfold py_delay_at. replace (Z.of_nat (S j)) with (1 + Z.of_nat j) by lia.
            reflexivity. }
          cbv zeta. rewrite Hsec.
          change (sleep_error w1 (py_delay_at self w (S j) (Py.draws w)))
            with (sleep_error w (py_delay_at self w (S j) (Py.draws w))).
          destruct (sleep_error w (py_delay_at self w (S j) (Py.draws w)))
            as [e |] eqn:Herr.
          * exists (Raised e), (py_drawn w1), 1%nat. split; [reflexivity |].
            constructor; try reflexivity; try lia; try (unfold w1; cbn; lia).
            exists O. split; [reflexivity |]. right.
               split; [exists seen; now split |]. split; [lia |].
               now rewrite !Nat.add_0_r.
          * destruct (IH (S j) (log ++ [record_of (1 + Z.of_nat j) seen])
                        (py_slept (py_delay_at self w (S j) (Py.draws w)) w1))
              as (res & w' & p' & Heq & Hinv); [right; lia |].
            exists res, w', (S p'). split; [exact Heq |].
            apply (py_inv_step j n w
                     (py_slept (py_delay_at self w (S j) (Py.draws w)) w1)
                     w' log seen res p' Hseen Hv);
              try reflexivity; [| exact Hinv].
            right. split; [lia |]. split; [reflexivity |].
            split; [| exact Herr].
            cbn. now rewrite <- app_assoc.
        + destruct (IH (S j) (log ++ [record_of (1 + Z.of_nat j) seen]) w1)
            as (res & w' & p' & Heq & Hinv); [left; lia |].
          exists res, w', (S p'). split; [exact Heq |].
          apply (py_inv_step j n w w1 w' log seen res p' Hseen Hv);
            try reflexivity; [| exact Hinv].
          left. split; [lia |]. split; reflexivity. }
    destruct (py_reply_from self url invoice w 0) as [r | [e | c]] eqn:Hreply.
    + apply (Hstep (Ok r)). reflexivity.
    + apply (Hstep (Raise e)). reflexivity.
    + exists (Raised (OtherError c)), w1, 1%nat. split; [reflexivity |].
      constructor; try reflexivity; try lia; try (unfold w1; cbn; lia).
      exists O. split; [reflexivity |]. left. rewrite Hreply. now split.
Qed.

End PyRuns.

(** * Properties of [Py.submit_invoice] *)

Lemma py_submit_invoice_run (self : t) (invoice : PyValue) (mode : string)
    (w : Py.World) :
  exists res w' p,
    Py.submit_invoice self invoice mode w = (res, w')
    /\ py_inv self (submit_url self mode) invoice 0
         (Z.to_nat (max_retries self)) w [] res w' p.
Proof.
  unfold Py.submit_invoice. rewrite range_from_one.
  apply py_for_attempts_run.
  destruct (Z_le_gt_dec (max_retries self) 0) as [Hle | Hgt].
  - left. lia.
  - right. lia.
Qed.

Lemma sleep_error_none (w : Py.World) (seconds : Q) :
  sleep_error w seconds = None <-> sleepable w seconds.
Proof.
  unfold sleep_error, sleepable.
  destruct (Qle_bool 0 seconds) eqn:H0.
  - destruct (Qle_bool seconds (Py.sleep_max w)) eqn:H1.
    + apply Qle_bool_iff in H0, H1. tauto.
    + split; [discriminate |]. intros [_ H]. apply Qle_bool_iff in H. congruence.
  - split.
    + destruct (Qle_bool (- seconds) (Py.sleep_max w)); discriminate.
    + intros [H _]. apply Qle_bool_iff in H. congruence.
Qed.


Lemma py_delay_at_eq (self : t) (w : Py.World) (i : nat) :
  py_delay_at self w (S (0 + i)) (Py.draws w + i) = py_delay self w (S i).
Proof. reflexivity. Qed.

Lemma py_reply_eq (self : t) (invoice : PyValue) (mode : string) (w : Py.World) (i : nat) :
  py_reply_from self (submit_url self mode) invoice w i
  = py_reply self invoice mode w (S i).
Proof. reflexivity. Qed.

Lemma requests_sent_eq (self : t) (url : string) (invoice : PyValue) (j n : nat)
    (w w' : Py.World) (log0 : list AttemptRecord)
    (res : Outcome (string * list AttemptRecord)) (p : nat) :
  py_inv self url invoice j n w log0 res w' p -> requests_sent w w' = p.
Proof.
  intros Hinv. unfold requests_sent. rewrite (pi_posts _ _ _ _ _ _ _ _ _ _ Hinv). lia.
Qed.

(** What a run that returned looks like. *)
Lemma py_returned (self : t) (invoice : PyValue) (mode : string) (w w' : Py.World)
    (st : string) (log : list AttemptRecord) :
  Py.submit_invoice self invoice mode w = (Returned (st, log), w') ->
  py_inv self (submit_url self mode) invoice 0 (Z.to_nat (max_retries self))
    w [] (Returned (st, log)) w' (length log)
  /\ requests_sent w w' = length log.
Proof.
  intros Heq.
  destruct (py_submit_invoice_run self invoice mode w) as (res & w0 & p & Heq0 & Hinv).
  rewrite Heq in Heq0. injection Heq0 as <- <-.
  pose proof (pi_result _ _ _ _ _ _ _ _ _ _ Hinv) as (recs & Hlog & Hlen & _).
  cbn in Hlog. subst recs. subst p.
  split; [exact Hinv | exact (requests_sent_eq _ _ _ _ _ _ _ _ _ _ Hinv)].
Qed.

(** The run returns when every reply is caught and every backoff is
    accepted. *)
Lemma py_returns (self : t) (invoice : PyValue) (mode : string) (w : Py.World) :
  transport_answers self invoice mode w ->
  backoff_accepted self w ->
  exists st log w',
    Py.submit_invoice self invoice mode w = (Returned (st, log), w').
Proof.
  intros Hans Hacc.
  destruct (py_submit_invoice_run self invoice mode w) as (res & w' & p & Heq & Hinv).
  destruct res as [[st log] | e]; [now exists st, log, w' |].
  exfalso.
  pose proof (pi_le _ _ _ _ _ _ _ _ _ _ Hinv) as Hle.
  destruct (pi_result _ _ _ _ _ _ _ _ _ _ Hinv) as (i & Hp & [(Hr & Hc) | (_ & Hlt & Herr)]).
  - apply (Hans (S i)); [lia | lia |]. exact Hc.
  - rewrite py_delay_at_eq in Herr.
    assert (Hok : sleep_error w (py_delay self w (S i)) = None).
    { apply sleep_error_none. apply Hacc; lia. }
    congruence.
Qed.

(** A configuration whose backoff [time.sleep] accepts: a backoff base that
    is not negative, draws of [random.uniform(0.5, 1.5)] between 0.5 and 1.5,
    and powers of the base small enough for the limit of [time.sleep]. *)
Lemma backoff_accepted_if (self : t) (w : Py.World) :
  (0 <= backoff_base self)%Q ->
  (forall n, ((1 # 2) <= Py.uniform w n (1 # 2) (3 # 2))%Q
             /\ (Py.uniform w n (1 # 2) (3 # 2) <= (3 # 2))%Q) ->
  (forall k, (1 <= k)%nat -> Z.of_nat k < max_retries self ->
             (backoff_base self ^ Z.of_nat k * (3 # 2) <= Py.sleep_max w)%Q) ->
  backoff_accepted self w.
Proof.
  intros Hb Hu Hmax k H1 Hk. unfold sleepable, py_delay.
  pose proof (Qpower_0_le (backoff_base self) (Z.of_nat k) Hb) as Hpow.
  destruct (Hu (Py.draws w + Nat.pred k)%nat) as [Hlo Hhi].
  specialize (Hmax k H1 Hk).
  split.
  - apply Qmult_le_0_compat; [exact Hpow | lra].
  - apply Qle_trans with (backoff_base self ^ Z.of_nat k * (3 # 2))%Q; [| exact Hmax].
    rewrite !(Qmult_comm (backoff_base self ^ Z.of_nat k)).
    apply Qmult_le_compat_r; assumption.
Qed.











(** C2, amended. In every run in which some attempt (a request that was
    sent) receives a response with status code in [400, 500) whose body is
    empty or decodes as JSON, the loop ends at that attempt: the call returns
    ["FAILED"], that request is the last one sent, and the log has exactly
    one record per request, the last being the record of that attempt with
    its status code and body. *)
Theorem client_error_ends_the_call (self : t) (invoice : PyValue) (mode : string)
    (w w' : Py.World) (res : Outcome (string * list AttemptRecord))
    (k : nat) (r : Response.t) :
  Py.submit_invoice self invoice mode w = (res, w') ->
  (1 <= k <= requests_sent w w')%nat ->
  py_reply self invoice mode w k = Returned r ->
  400 <= Response.status_code r < 500 ->
  readable r ->
  exists log body,
    res = Returned ("FAILED", log)
    /\ requests_sent w w' = k
    /\ length log = k
    /\ body_of r = Ok body
    /\ nth_error log (Nat.pred k)
       = Some (mkAttempt (Z.of_nat k) (Some (Response.status_code r)) body).
Proof.
  intros Heq Hk Hr H4xx Hread.
  destruct (py_submit_invoice_run self invoice mode w) as (res0 & w0 & p & Heq0 & Hinv).
  rewrite Heq in Heq0. injection Heq0 as <- <-.
  rewrite (requests_sent_eq _ _ _ _ _ _ _ _ _ _ Hinv) in *.
  assert (Hv : verdict (Ok r) = Some "FAILED").
  { apply verdict_failed. exists r. now repeat split. }
  assert (Hnot : ~ py_carries_on (py_reply self invoice mode w k)).
  { intros (seen & Hc & Hvn). rewrite Hr in Hc. injection Hc as <-. congruence. }
  assert (Hp : p = k).
  { destruct (Nat.eq_dec p k) as [E | NE]; [exact E |]. exfalso. apply Hnot.
    pose proof (pi_before _ _ _ _ _ _ _ _ _ _ Hinv (Nat.pred k) ltac:(lia)) as Hb.
    rewrite py_reply_eq in Hb. now replace (S (Nat.pred k)) with k in Hb by lia. }
  subst p.
  destruct Hread as [body Hb].
  destruct res as [[st log] | e].
  - destruct (pi_result _ _ _ _ _ _ _ _ _ _ Hinv) as (recs & Hlog & Hlen & Hrec & Hend & _).
    cbn in Hlog. subst recs.
    assert (Hst : st = "FAILED").
    { destruct Hend as [(i & seen & Hi & Hc & Hvi) | (_ & _ & Hall)].
      - rewrite py_reply_eq in Hc. replace (S i) with k in Hc by lia.
        rewrite Hr in Hc. injection Hc as <-. congruence.
      - exfalso. apply Hnot. specialize (Hall (Nat.pred k) ltac:(lia)).
        rewrite py_reply_eq in Hall. now replace (S (Nat.pred k)) with k in Hall by lia. }
    subst st. exists log, body. repeat split; try assumption; try reflexivity.
    destruct (Hrec (Nat.pred k) ltac:(lia)) as (seen & Hc & Hn).
    rewrite py_reply_eq in Hc. replace (S (Nat.pred k)) with k in Hc by lia.
    rewrite Hr in Hc. injection Hc as <-.
    rewrite Hn. unfold record_of. rewrite Hb. do 2 f_equal. lia.
  - exfalso.
    destruct (pi_result _ _ _ _ _ _ _ _ _ _ Hinv) as (i & Hi & [(Hre & Hc) | (Hc & _)]).
    + rewrite py_reply_eq in Hc. replace (S i) with k in Hc by lia.
      rewrite Hr in Hc. discriminate.
    + apply Hnot. rewrite py_reply_eq in Hc. now replace (S i) with k in Hc by lia.
Qed.

Lemma client_error_ends_the_call_witness :
  exists log body,
    Returned ("FAILED", [mkAttempt 1 None (PyStr "Connection refused");
                         mkAttempt 2 (Some 422) (PyDict [])])
    = Returned ("FAILED", log)
    /\ requests_sent
         (py_world (fun n => match n with
                             | O => Raised (RequestError connection_refused)
                             | _ => Returned (json_response 422)
                             end) 1 1000)
         (snd (Py.submit_invoice client3 sample_invoice "success"
                 (py_world (fun n => match n with
                                     | O => Raised (RequestError connection_refused)
                                     | _ => Returned (json_response 422)
                                     end) 1 1000))) = 2%nat
    /\ length log = 2%nat
    /\ body_of (json_response 422) = Ok body
    /\ nth_error log (Nat.pred 2)
       = Some (mkAttempt (Z.of_nat 2)
                 (Some (Response.status_code (json_response 422))) body).
Proof.
  apply (client_error_ends_the_call client3 sample_invoice "success"
           (py_world (fun n => match n with
                               | O => Raised (RequestError connection_refused)
                               | _ => Returned (json_response 422)
                               end) 1 1000)).
  - reflexivity.
  - vm_compute. lia.
  - reflexivity.
  - change (400 <= 422 < 500). lia.
  - exists (PyDict []). reflexivity.
Defined.

Section PySchedule.

Variables (post : Event) (delay : nat -> nat -> Q).




End PySchedule.




Lemma py_no_attempts_eq (self : t) (invoice : PyValue) (mode : string) (w : Py.World) :
  max_retries self <= 0 ->
  Py.submit_invoice self invoice mode w = (Returned ("FAILED", []), w).
Proof.
  intros Hm. unfold Py.submit_invoice, range.
  replace (Z.to_nat (max_retries self + 1 - 1)) with O by lia. reflexivity.
Qed.

(** C8, amended. Nothing validates the configuration before the loop: the
    constructor stores what it is given and [submit_invoice] passes it on.
    With a retry count that is not positive the call sends no request,
    records nothing and returns the ordinary outcome ["FAILED"]. A base
    address reaches [requests.post] at the first attempt, and a malformed one
    is dealt with as [requests.post] deals with it: if it raises an exception
    that is no [RequestException], that exception leaves [submit_invoice] at
    the first attempt, after one call of [requests.post] and without any
    outcome; if it raises a [RequestException] every time, each attempt is
    recorded (no status code, [str(e)]) and retried like any transport
    failure, and the call returns the outcome ["FAILED"] with one record per
    attempt allowed, provided [time.sleep] accepts the backoff delays. *)
Theorem configuration_is_not_validated (base : string) (retries : Z)
    (base_q tmo : Q) (invoice : PyValue) (mode : string) (w : Py.World) :
  (retries <= 0 ->
   Py.submit_invoice (__init__ base retries base_q tmo) invoice mode w
   = (Returned ("FAILED", []), w))
  /\ (forall class,
        1 <= retries ->
        py_reply (__init__ base retries base_q tmo) invoice mode w 1
        = Raised (OtherError class) ->
        exists w',
          Py.submit_invoice (__init__ base retries base_q tmo) invoice mode w
          = (Raised (OtherError class), w')
          /\ requests_sent w w' = 1%nat)
  /\ (forall e,
        1 <= retries ->
        (forall k, (1 <= k)%nat -> Z.of_nat k <= retries ->
                   py_reply (__init__ base retries base_q tmo) invoice mode w k
                   = Raised (RequestError e)) ->
        backoff_accepted (__init__ base retries base_q tmo) w ->
        exists log w',
          Py.submit_invoice (__init__ base retries base_q tmo) invoice mode w
          = (Returned ("FAILED", log), w')
          /\ length log = Z.to_nat retries
          /\ requests_sent w w' = length log
          /\ Forall (fun rec => status_code rec = None
                                /\ response rec = PyStr (str e)) log).
Proof.
  set (self := __init__ base retries base_q tmo).
  split; [| split].
  - intros Hm. now apply py_no_attempts_eq.
  - intros class Hm Hr.
    destruct (py_submit_invoice_run self invoice mode w) as (res & w' & p & Heq & Hinv).
    assert (Hnot : ~ py_carries_on (py_reply self invoice mode w 1)).
    { intros (seen & Hc & _). rewrite Hr in Hc. discriminate. }
    pose proof (pi_pos _ _ _ _ _ _ _ _ _ _ Hinv) as Hpos.
    assert (Hn : (0 < Z.to_nat (max_retries self))%nat)
      by (change (max_retries self) with retries; lia).
    specialize (Hpos Hn).
    assert (Hp : p = 1%nat).
    { destruct (Nat.eq_dec p 1) as [E | NE]; [exact E |]. exfalso. apply Hnot.
      exact (pi_before _ _ _ _ _ _ _ _ _ _ Hinv O ltac:(lia)). }
    subst p. exists w'.
    split; [| exact (requests_sent_eq _ _ _ _ _ _ _ _ _ _ Hinv)].
    rewrite Heq. f_equal.
    destruct res as [[st log] | e].
    + exfalso.
      destruct (pi_result _ _ _ _ _ _ _ _ _ _ Hinv) as (recs & _ & _ & Hrec & _).
      destruct (Hrec O ltac:(lia)) as (seen & Hc & _).
      rewrite py_reply_eq, Hr in Hc. discriminate.
    + destruct (pi_result _ _ _ _ _ _ _ _ _ _ Hinv) as (i & Hi & [(Hre & _) | (Hc & _)]).
      * replace i with O in Hre by lia. rewrite py_reply_eq, Hr in Hre.
        now injection Hre as <-.
      * exfalso. apply Hnot. now replace i with O in Hc by lia.
  - intros e Hm Hall Hacc.
    assert (Hans : transport_answers self invoice mode w).
    { intros k H1 Hk. rewrite (Hall k H1 Hk). discriminate. }
    destruct (py_returns self invoice mode w Hans Hacc) as (st & log & w' & Heq).
    destruct (py_returned self invoice mode w w' st log Heq) as [Hinv Hsent].
    pose proof (pi_le _ _ _ _ _ _ _ _ _ _ Hinv) as Hle.
    destruct (pi_result _ _ _ _ _ _ _ _ _ _ Hinv) as (recs & Hlog & _ & Hrec & Hend & _).
    cbn in Hlog. subst recs.
    change (max_retries self) with retries in *.
    destruct Hend as [(i & seen & Hi & Hc & Hv) | (Hn & Hst & _)].
    { exfalso. rewrite py_reply_eq, (Hall (S i)) in Hc by lia.
      injection Hc as <-. discriminate. }
    subst st. exists log, w'. split; [exact Heq |].
    split; [exact Hn |]. split; [exact Hsent |].
    apply Forall_forall. intros rec Hin.
    apply In_nth_error in Hin. destruct Hin as [i Hi].
    assert (Hlt : (i < length log)%nat) by (apply nth_error_Some; congruence).
    destruct (Hrec i Hlt) as (seen & Hc & Hn').
    rewrite py_reply_eq, (Hall (S i)) in Hc by lia. injection Hc as <-.
    rewrite Hi in Hn'. injection Hn' as ->. now split.
Qed.

(** The three cases of the theorem above: a host label of 70 characters
    (urllib3 raises [LocationParseError], which is no [RequestException]),
    an address without scheme (requests raises [MissingSchema], which is one)
    and a retry count of zero. *)
Example unparsable_host_escapes :
  fst (Py.submit_invoice
         (__init__
            "https://aaaaaaaaaaaaaaaaaaaaaaaaaaaaaaaaaaaaaaaaaaaaaaaaaaaaaaaaaaaaaaaaaaaaaa.example"
            2 2 5) sample_invoice
         "success" (py_world (py_always (Raised (OtherError "LocationParseError")))
                      1 1000))
  = Raised (OtherError "LocationParseError").
Proof. reflexivity. Qed.

Example missing_scheme_is_recorded :
  fst (Py.submit_invoice (__init__ "not a url" 2 2 5) sample_invoice "success"
         (py_world (py_always (Raised (RequestError no_scheme))) 1 1000))
  = Returned ("FAILED",
              [mkAttempt 1 None (PyStr (str no_scheme));
               mkAttempt 2 None (PyStr (str no_scheme))]).
Proof. reflexivity. Qed.

Example zero_retries_return_failed :
  fst (Py.submit_invoice (__init__ "https://tax.example" 0 2 5) sample_invoice
         "success" (py_world (py_always (Returned (json_response 200))) 1 1000))
  = Returned ("FAILED", []).
Proof. reflexivity. Qed.

(** X2. A response with an empty body is recorded with its status code and
    [None] as body, [response.json()] not being consulted: in a call that
    returns, the attempt that received it has exactly this record; and when
    its status code is 200 or a 4xx the call returns at that attempt, with
    ["SUBMITTED"] or ["FAILED"], this record being the last. *)
Theorem empty_body_is_recorded_as_none (self : t) (invoice : PyValue)
    (mode : string) (w w' : Py.World) (res : Outcome (string * list AttemptRecord))
    (k : nat) (r : Response.t) :
  Py.submit_invoice self invoice mode w = (res, w') ->
  (1 <= k <= requests_sent w w')%nat ->
  py_reply self invoice mode w k = Returned r ->
  Response.content r = "" ->
  (forall st log, res = Returned (st, log) ->
     length log = requests_sent w w'
     /\ nth_error log (Nat.pred k)
        = Some (mkAttempt (Z.of_nat k) (Some (Response.status_code r)) PyNone))
  /\ (Response.status_code r = 200 \/ 400 <= Response.status_code r < 500 ->
      exists log,
        res = Returned (if Response.status_code r =? 200
                        then "SUBMITTED" else "FAILED", log)
        /\ requests_sent w w' = k).
Proof.
  intros Heq Hk Hr Hc.
  assert (Hb : body_of r = Ok PyNone).
  { unfold body_of. apply truthy_empty in Hc. now rewrite Hc. }
  split.
  - intros st log ->.
    destruct (py_returned self invoice mode w w' st log Heq) as [Hinv Hsent].
    split; [now rewrite Hsent |]. rewrite Hsent in Hk.
    destruct (pi_result _ _ _ _ _ _ _ _ _ _ Hinv) as (recs & Hlog & _ & Hrec & _).
    cbn in Hlog. subst recs.
    destruct (Hrec (Nat.pred k) ltac:(lia)) as (seen & Hcg & Hn).
    rewrite py_reply_eq in Hcg. replace (S (Nat.pred k)) with k in Hcg by lia.
    rewrite Hr in Hcg. injection Hcg as <-.
    rewrite Hn. unfold record_of. rewrite Hb. do 2 f_equal. lia.
  - intros Hsc.
    destruct (py_submit_invoice_run self invoice mode w) as (res0 & w0 & p & Heq0 & Hinv).
    rewrite Heq in Heq0. injection Heq0 as <- <-.
    rewrite (requests_sent_eq _ _ _ _ _ _ _ _ _ _ Hinv) in *.
    assert (Hv : verdict (Ok r)
                 = Some (if Response.status_code r =? 200 then "SUBMITTED" else "FAILED")).
    { destruct (Z.eqb_spec (Response.status_code r) 200) as [E | NE].
      - apply verdict_submitted. exists r. repeat split; [exact E | now exists PyNone].
      - apply verdict_failed. exists r. repeat split; [lia | lia | now exists PyNone]. }
    assert (Hnot : ~ py_carries_on (py_reply self invoice mode w k)).
    { intros (seen & Hcg & Hvn). rewrite Hr in Hcg. injection Hcg as <-. congruence. }
    assert (Hp : p = k).
    { destruct (Nat.eq_dec p k) as [E | NE]; [exact E |]. exfalso. apply Hnot.
      pose proof (pi_before _ _ _ _ _ _ _ _ _ _ Hinv (Nat.pred k) ltac:(lia)) as Hbf.
      rewrite py_reply_eq in Hbf. now replace (S (Nat.pred k)) with k in Hbf by lia. }
    subst p.
    destruct res as [[st log] | e].
    + exists log. split; [| reflexivity]. do 2 f_equal.
      destruct (pi_result _ _ _ _ _ _ _ _ _ _ Hinv) as (recs & _ & _ & _ & Hend & _).
      destruct Hend as [(i & seen & Hi & Hcg & Hvi) | (_ & _ & Hall)].
      * rewrite py_reply_eq in Hcg. replace (S i) with k in Hcg by lia.
        rewrite Hr in Hcg. injection Hcg as <-. congruence.
      * exfalso. apply Hnot. specialize (Hall (Nat.pred k) ltac:(lia)).
        rewrite py_reply_eq in Hall. now replace (S (Nat.pred k)) with k in Hall by lia.
    + exfalso.
      destruct (pi_result _ _ _ _ _ _ _ _ _ _ Hinv) as (i & Hi & [(Hre & Hcg) | (Hcg & _)]).
      * rewrite py_reply_eq in Hcg. replace (S i) with k in Hcg by lia.
        rewrite Hr in Hcg. discriminate.
      * apply Hnot. rewrite py_reply_eq in Hcg. now replace (S i) with k in Hcg by lia.
Qed.

Lemma empty_body_is_recorded_as_none_witness :
  (forall st log,
     Returned ("SUBMITTED", [mkAttempt 1 (Some 503) PyNone;
                             mkAttempt 2 (Some 200) PyNone])
     = Returned (st, log) ->
     length log = 2%nat
     /\ nth_error log (Nat.pred 2)
        = Some (mkAttempt (Z.of_nat 2)
                  (Some (Response.status_code (empty_response 200))) PyNone))
  /\ (Response.status_code (empty_response 200) = 200
      \/ 400 <= Response.status_code (empty_response 200) < 500 ->
      exists log,
        Returned ("SUBMITTED", [mkAttempt 1 (Some 503) PyNone;
                                mkAttempt 2 (Some 200) PyNone])
        = Returned (if Response.status_code (empty_response 200) =? 200
                    then "SUBMITTED" else "FAILED", log)
        /\ 2%nat = 2%nat).
Proof.
  apply (empty_body_is_recorded_as_none client3 sample_invoice "success"
           (py_world (fun n => match n with
                               | O => Returned (empty_response 503)
                               | _ => Returned (empty_response 200)
                               end) 1 1000)
           (snd (Py.submit_invoice client3 sample_invoice "success"
                   (py_world (fun n => match n with
                                       | O => Returned (empty_response 503)
                                       | _ => Returned (empty_response 200)
                                       end) 1 1000)))).
  - reflexivity.
  - vm_compute. lia.
  - reflexivity.
  - reflexivity.
Defined.



(** * The two models agree

    When [time.sleep] accepts the delays of a call, [Py.submit_invoice]
    does what [submit_invoice] does in the world of the first model: same
    status, same log, same requests and sleeps. *)

Lemma for_attempts_agree (self : t) (url : string) (invoice : PyValue) (n : nat) :
  forall (j : nat) (log : list AttemptRecord) (w : World) (wp : Py.World),
    n = O \/ Z.of_nat (j + n) = max_retries self ->
    same_state w wp ->
    (forall i, (S i < n)%nat ->
       sleep_error wp (py_delay_at self wp (S (j + i)) (Py.draws wp + i)) = None) ->
    exists st log' w' wp',
      for_attempts self url invoice (map (fun i => 1 + Z.of_nat i) (seq j n)) log w
        = (Ok (st, log'), w')
      /\ Py.for_attempts self url invoice (map (fun i => 1 + Z.of_nat i) (seq j n))
           log wp
         = (Returned (st, log'), wp')
      /\ same_state w' wp'.
Proof.
  induction n as [| n IH]; intros j log w wp Hm Hsame Hacc.
  - exists "FAILED", log, w, wp.
    split; [reflexivity | split; [reflexivity | exact Hsame]].
  - destruct Hm as [Hm | Hm]; [discriminate |].
    destruct Hsame as (Ht & Hu & Hp & Hd & He).
    cbn [seq map for_attempts Py.for_attempts]. unfold bind at 1, Py.bind at 1.
    rewrite loop_body_eq, py_loop_body_eq. cbv zeta.
    rewrite Ht, Hp.
    set (w1 := posted url invoice (timeout self) w).
    set (wp1 := py_posted url invoice (timeout self) wp).
    assert (Hsame1 : same_state w1 wp1).
    { unfold w1, wp1, same_state, posted, py_posted. cbn.
      repeat split; try assumption; congruence. }
    assert (Hgo : forall seen,
              exists st log' w' wp',
                match
                  match verdict seen with
                  | Some st0 => (Ok (Return (st0, log ++ [record_of (1 + Z.of_nat j) seen])), w1)
                  | None => (Ok (Next (log ++ [record_of (1 + Z.of_nat j) seen])),
                             backed_off self (1 + Z.of_nat j) w1)
                  end
                with
                | (Ok a, w'0) =>
                    match a with
                    | Return result => ret result
                    | Next lg =>
                        for_attempts self url invoice
                          (map (fun i => 1 + Z.of_nat i) (seq (S j) n)) lg
                    end w'0
                | (Raise e, w'0) => (Raise e, w'0)
                end = (Ok (st, log'), w')
                /\ match py_step self (1 + Z.of_nat j) log wp1 seen with
                   | (Returned a, w'0) =>
                       match a with
                       | Return result => Py.ret result
                       | Next lg =>
                           Py.for_attempts self url invoice
                             (map (fun i => 1 + Z.of_nat i) (seq (S j) n)) lg
                       end w'0
                   | (Raised e, w'0) => (Raised e, w'0)
                   end = (Returned (st, log'), wp')
                /\ same_state w' wp').
    { intros seen. unfold py_step.
      destruct (verdict seen) as [st |].
      - exists st, (log ++ [record_of (1 + Z.of_nat j) seen]), w1, wp1.
        split; [reflexivity | split; [reflexivity | exact Hsame1]].
      - unfold backed_off.
        destruct (Z.ltb_spec (1 + Z.of_nat j) (max_retries self)) as [Hlt | Hge].
        + assert (Hsec : (backoff_base self ^ (1 + Z.of_nat j)
                          * Py.uniform wp1 (Py.draws wp1) (1 # 2) (3 # 2))%Q
                         = delay self w1 (1 + Z.of_nat j) (draws w1)).
          { unfold delay, wp1, w1, py_posted, posted. cbn. now rewrite Hu, Hd. }
          cbv zeta. rewrite Hsec.
          assert (Hok : sleep_error wp1 (delay self w1 (1 + Z.of_nat j) (draws w1)) = None).
          { specialize (Hacc O ltac:(lia)).
            rewrite <- Hsec. unfold py_delay_at in Hacc.
            rewrite !Nat.add_0_r in Hacc.
            replace (Z.of_nat (S j)) with (1 + Z.of_nat j) in Hacc by lia.
            exact Hacc. }
          rewrite Hok.
          apply IH.
          * right. lia.
          * destruct Hsame1 as (Ht1 & Hu1 & Hp1 & Hd1 & He1).
            unfold same_state, py_slept. cbn.
            repeat split; try assumption; congruence.
          * intros i Hi. specialize (Hacc (S i) ltac:(lia)).
            unfold py_delay_at in *. cbn [Py.uniform Py.draws py_slept wp1 py_posted].
            unfold sleep_error in *. cbn [Py.sleep_max py_slept wp1 py_posted].
            replace (S (S j + i)) with (S (j + S i)) by lia.
            replace (S (Py.draws wp) + i)%nat with (Py.draws wp + S i)%nat by lia.
            exact Hacc.
        + assert (n = O) by lia. subst n.
          exists "FAILED", (log ++ [record_of (1 + Z.of_nat j) seen]), w1, wp1.
          split; [reflexivity | split; [reflexivity | exact Hsame1]]. }
    destruct (transport w (posts w) url invoice (timeout self)) as [r | e].
    + apply (Hgo (Ok r)).
    + apply (Hgo (Raise e)).
Qed.

(** The first model is [Py] in the worlds where [time.sleep] accepts every
    delay of the call. *)
Theorem py_agrees_with_first_model (self : t) (invoice : PyValue) (mode : string)
    (w : World) (limit : Q) :
  backoff_accepted self (py_of_world w limit) ->
  exists st log w' wp',
    submit_invoice self invoice mode w = (Ok (st, log), w')
    /\ Py.submit_invoice self invoice mode (py_of_world w limit)
       = (Returned (st, log), wp')
    /\ Py.posts wp' = posts w'
    /\ Py.draws wp' = draws w'
    /\ Py.events wp' = events w'.
Proof.
  intros Hacc.
  destruct (for_attempts_agree self (submit_url self mode) invoice
              (Z.to_nat (max_retries self)) 0 [] w (py_of_world w limit))
    as (st & log & w' & wp' & Heq & Heqp & Hsame).
  - destruct (Z_le_gt_dec (max_retries self) 0); [left | right]; lia.
  - unfold same_state, py_of_world. cbn. now repeat split.
  - intros i Hi. apply sleep_error_none. rewrite py_delay_at_eq. apply Hacc; lia.
  - exists st, log, w', wp'.
    unfold submit_invoice, Py.submit_invoice. rewrite range_from_one.
    destruct Hsame as (_ & _ & Hp & Hd & He). now repeat split.
Qed.
